(** * Three Card Poker: rank table, hand evaluation, wager multipliers and
      bank settlement

    A shallow embedding of [threecardlookup.py] and [threecardpoker.py].
    Python dictionaries are [gmap]s, numpy arrays are lists, [int32] storage
    is [Z] with the wrap-around written out, and a raised exception
    ([KeyError], a failed [reshape] or broadcast, an array of size zero) is
    [None]. *)

From Stdlib Require Import ZArith Lia List.
From stdpp Require Import base option list gmap.

Open Scope Z_scope.

(** ** 32-bit storage *)

(** The value an [int32] array cell holds after an integer [x] is stored in
    it: two's complement wrap-around. *)
Definition wrap32 (x : Z) : Z := (x + 2 ^ 31) mod 2 ^ 32 - 2 ^ 31.

Definition INT32_MAX : Z := 2 ^ 31 - 1.

(** ** threecardlookup.py *)

Module ThreeCardLookup.

Definition FLUSH_OFFSET : Z := 430.

Definition MIN_STRAIGHT_FLUSH : Z := 1.
Definition MAX_STRAIGHT_FLUSH : Z := 12.
Definition MIN_TRIPS : Z := 13.
Definition MAX_TRIPS : Z := 25.
Definition MIN_STRAIGHT : Z := 431.
Definition MAX_STRAIGHT : Z := 442.
Definition MIN_FLUSH : Z := 443.
Definition MAX_FLUSH : Z := 716.
Definition MIN_PAIR : Z := 717.
Definition MAX_PAIR : Z := 872.
Definition MIN_HIGH_CARD : Z := 873.
Definition MAX_HIGH_CARD : Z := 1146.

Definition PRIMES_list : list Z :=
  [41; 2; 3; 5; 7; 11; 13; 17; 19; 23; 29; 31; 37; 41].

(** [PRIMES[i]]; every index used by the constructor is in range. *)
Definition PRIMES (i : nat) : Z := nth i PRIMES_list 0.

(** [xrange(hi, lo, -1)]: [hi, hi-1, ..., lo+1]. *)
Definition xrange_down (hi lo : nat) : list nat := rev (seq (S lo) (hi - lo)).

(** The constructor threads the dictionary and the running [rank]. *)
Definition build_state : Type := gmap Z Z * Z.

Definition put (k : Z) (st : build_state) : build_state :=
  (<[k := st.2]> st.1, st.2 + 1).

(** Lines 60-64: the unsuited straights, stored with the offset added. *)
Definition add_straights (lookup : gmap Z Z) : build_state :=
  foldl (fun st i =>
           (<[PRIMES i * PRIMES (i - 1) * PRIMES (i - 2) := st.2 + FLUSH_OFFSET]> st.1,
            st.2 + 1))
        (lookup, MIN_STRAIGHT_FLUSH) (xrange_down 13 1).

(** Lines 67-69: trips, continuing with the same [rank]. *)
Definition add_trips (st : build_state) : build_state :=
  foldl (fun st i => put (PRIMES i ^ 3) st) st (xrange_down 13 0).

(** Lines 73-83: high cards, skipping keys already present (the straights). *)
Definition add_high_cards (lookup : gmap Z Z) : build_state :=
  foldl (fun st c1 =>
    foldl (fun st c2 =>
      foldl (fun st c3 =>
               let multiple := PRIMES c1 * PRIMES c2 * PRIMES c3 in
               match st.1 !! multiple with
               | None => put multiple st
               | Some _ => st
               end)
            st (xrange_down (c2 - 1) 0))
      st (xrange_down (c1 - 1) 0))
    (lookup, MIN_HIGH_CARD) (xrange_down 13 0).

(** Lines 86-92: pairs. *)
Definition add_pairs (lookup : gmap Z Z) : build_state :=
  foldl (fun st i =>
    foldl (fun st kicker =>
             if decide (kicker = i) then st
             else put (PRIMES i ^ 2 * PRIMES kicker) st)
          st (xrange_down 13 0))
    (lookup, MIN_PAIR) (xrange_down 13 0).

(** [__init__] run on the empty class attribute [lookup = {}]. *)
Definition init (lookup : gmap Z Z) : gmap Z Z :=
  let st := add_trips (add_straights lookup) in
  let st := add_high_cards st.1 in
  (add_pairs st.1).1.

Definition lookup : gmap Z Z := Eval vm_compute in init ∅.

End ThreeCardLookup.

(** ** Card encoding *)

Module Card.

(** Modelled from the spec: the card encoding of the external deuces library
    ([deuces.card.Card]), which §3 describes as a rank prime in the low byte
    and one suit bit in a high nibble.  [new] is [Card.new]:
    [bitrank | suit | rank | rank_prime] with [bitrank = 1 << rank_int << 16],
    [suit = suit_int << 12] and [rank = rank_int << 8]. *)
Inductive Rank : Type :=
  | R2 | R3 | R4 | R5 | R6 | R7 | R8 | R9 | RT | RJ | RQ | RK | RA.

Inductive Suit : Type := Spades | Hearts | Diamonds | Clubs.

Definition rank_int (r : Rank) : Z :=
  match r with
  | R2 => 0 | R3 => 1 | R4 => 2 | R5 => 3 | R6 => 4 | R7 => 5 | R8 => 6
  | R9 => 7 | RT => 8 | RJ => 9 | RQ => 10 | RK => 11 | RA => 12
  end.

Definition suit_int (s : Suit) : Z :=
  match s with Spades => 1 | Hearts => 2 | Diamonds => 4 | Clubs => 8 end.

Definition rank_prime (r : Rank) : Z :=
  match r with
  | R2 => 2 | R3 => 3 | R4 => 5 | R5 => 7 | R6 => 11 | R7 => 13 | R8 => 17
  | R9 => 19 | RT => 23 | RJ => 29 | RQ => 31 | RK => 37 | RA => 41
  end.

Definition new (r : Rank) (s : Suit) : Z :=
  Z.lor (Z.lor (Z.lor (Z.shiftl (Z.shiftl 1 (rank_int r)) 16)
                      (Z.shiftl (suit_int s) 12))
               (Z.shiftl (rank_int r) 8))
        (rank_prime r).

(** [Card.get_rank_int]. *)
Definition get_rank_int (card : Z) : Z := Z.land (Z.shiftr card 8) 0xF.

Definition all_ranks : list Rank :=
  [R2; R3; R4; R5; R6; R7; R8; R9; RT; RJ; RQ; RK; RA].

Definition all_suits : list Suit := [Spades; Hearts; Diamonds; Clubs].

#[global] Instance Rank_eq_dec : EqDecision Rank.
Proof. solve_decision. Defined.

#[global] Instance Suit_eq_dec : EqDecision Suit.
Proof. solve_decision. Defined.

End Card.

(** ** threecardpoker.py: hand evaluation *)

(** A row of the [(n, 3)] hand array. *)
Definition Hand : Type := Z * Z * Z.

Definition cards (h : Hand) : list Z :=
  let '(c0, c1, c2) := h in [c0; c1; c2].

Module ThreeCardPoker.

Import ThreeCardLookup.

(** [evaluate_hand]: the loop threads [prime] and [suit]; a missing key
    raises [KeyError]. *)
Definition evaluate_hand (hand : list Z) : option Z :=
  let st := foldl (fun st card => (st.1 * Z.land card 0xFF, Z.land st.2 card))
                  (1, 0xF000) hand in
  let prime := st.1 in
  let suit := st.2 in
  let suited := if decide (suit = 0) then 0 else 1 in
  v ← lookup !! prime;
  Some (v - suited * FLUSH_OFFSET).

(** [np.multiply.reduce] and [np.bitwise_or.reduce] along a row. *)
Definition multiply_reduce (row : list Z) : Z := foldl Z.mul 1 row.
Definition bitwise_or_reduce (row : list Z) : Z := foldl Z.lor 0 row.

(** Lines 121-130 on the rows of the batch.  The intermediate arrays are
    [int32]; the lookup is applied element by element and the first missing
    key aborts the whole batch. *)
Definition evaluate_rows (hands : list Hand) : option (list Z) :=
  let hand_ranks := map (fun h => map (fun c => wrap32 (Z.land c 0xFF)) (cards h)) hands in
  let hand_primes := map (fun r => wrap32 (multiply_reduce r)) hand_ranks in
  let hand_flush_adj :=
    map (fun h =>
           if decide (Z.land (Z.lnot (bitwise_or_reduce (map Z.lnot (cards h)))) 0xF000 = 0)
           then 0 else FLUSH_OFFSET) hands in
  looked ← mapM (fun x => lookup !! x) hand_primes;
  Some (zip_with (fun v adj => wrap32 (v - adj)) looked hand_flush_adj).

(** [evaluate_hands].  An empty batch raises: its arrays have size zero,
    which neither [np.memmap] (lines 103-112) nor [np.vectorize] (lines
    129-130) accepts. *)
Definition evaluate_hands (hands : list Hand) : option (list Z) :=
  match hands with
  | [] => None
  | _ :: _ => evaluate_rows hands
  end.

(** *** numpy helpers *)

(** [np.copysign(x, y)] on integer arguments: the magnitude of [x] with the
    sign of [y].  An integer zero converts to a positive zero, so
    [copysign x 0] is [|x|]. *)
Definition copysign (x y : Z) : Z := if y <? 0 then - Z.abs x else Z.abs x.

(** [a.reshape(-1, w)] on a flat array: consecutive rows of width [w]; raises
    unless [w] divides the length. *)
Definition reshape {A : Type} (w : nat) (l : list A) : option (list (list A)) :=
  if decide (w <> 0 /\ length l `mod` w = 0)%nat
  then Some (map (fun r => take w (drop (r * w) l)) (seq 0 (length l / w)))
  else None.

(** The slice [l[skip::k]] for a step [k >= 1]. *)
Fixpoint stride_from {A : Type} (k skip : nat) (l : list A) : list A :=
  match l with
  | [] => []
  | x :: l' =>
      match skip with
      | O => x :: stride_from k (k - 1) l'
      | S skip' => stride_from k skip' l'
      end
  end.

Definition stride {A : Type} (k : nat) (l : list A) : list A := stride_from k 0 l.

(** *** GenerateMultipliers *)

(** The external 5-card evaluator used for the 6-card bonus: [_six] maps six
    cards to the strength of the best five, and [table] publishes the band
    maxima. *)
Record Evaluator : Type := {
  _six : list Z -> Z;
  MAX_STRAIGHT_FLUSH : Z;
  MAX_FOUR_OF_A_KIND : Z;
  MAX_FULL_HOUSE : Z;
  MAX_FLUSH : Z;
  MAX_STRAIGHT : Z;
  MAX_THREE_OF_A_KIND : Z
}.

(** [multipliers[round, hand, 0..3]]. *)
Record Multipliers : Type := {
  play : Z;
  ante : Z;
  pair_plus : Z;
  six_card : Z
}.

(** Lines 219-221: the house-way decision, [1] to play and [0] to fold. *)
Definition house_way (ACE_HIGH KING_HIGH QUEEN_HIGH ACE KING : Z)
    (dealer_face_up player_value : Z) : Z :=
  if player_value <=? ACE_HIGH then 1
  else if player_value <=? KING_HIGH
       then (if Z.land (Z.shiftr dealer_face_up 8) 0xF <? ACE then 1 else 0)
       else if player_value <=? QUEEN_HIGH
            then (if Z.land (Z.shiftr dealer_face_up 8) 0xF <? KING then 1 else 0)
            else 0.

(** Lines 237-243. *)
Definition pair_plus_multiplier (play_multiplier player_value : Z) : Z :=
  if play_multiplier =? 0 then -1
  else if player_value >? ThreeCardLookup.MAX_PAIR then -1
  else if player_value >? ThreeCardLookup.MAX_FLUSH then 1
  else if player_value >? ThreeCardLookup.MAX_STRAIGHT then 3
  else if player_value >? ThreeCardLookup.MAX_TRIPS then 6
  else if player_value >? ThreeCardLookup.MAX_STRAIGHT_FLUSH then 30
  else if player_value >? 1 then 40 else 50.

(** Lines 251-253. *)
Definition ante_multiplier (QUEEN_HIGH play_multiplier win_lose dealer_value : Z) : Z :=
  if play_multiplier =? 0 then -1
  else if win_lose >? -1 then win_lose
  else if dealer_value <=? QUEEN_HIGH then -1 else 0.

(** Line 260. *)
Definition play_result (QUEEN_HIGH play_multiplier win_lose dealer_value : Z) : Z :=
  if dealer_value <=? QUEEN_HIGH then play_multiplier * win_lose else 0.

(** Lines 319-325. *)
Definition six_card_multiplier (evaluator : Evaluator) (value : Z) : Z :=
  if value >? MAX_THREE_OF_A_KIND evaluator then -1
  else if value >? MAX_STRAIGHT evaluator then 5
  else if value >? MAX_FLUSH evaluator then 10
  else if value >? MAX_FULL_HOUSE evaluator then 15
  else if value >? MAX_FOUR_OF_A_KIND evaluator then 25
  else if value >? MAX_STRAIGHT_FLUSH evaluator then 50
  else if value >? 1 then 200 else 1000.

(** One cell of the result.  The source fills whole arrays stage by stage;
    every stage is element-wise, so a cell depends only on the dealer's
    face-up card, the two values and the six cards handed to the oracle.
    [win_lose] is an [int32] array (line 189) and so is the array holding
    the oracle's values (line 298). *)
Definition player_multipliers (evaluator : Evaluator)
    (ACE_HIGH KING_HIGH QUEEN_HIGH ACE KING : Z)
    (dealer_face_up dealer_value player_value : Z) (eval_hand : list Z) : Multipliers :=
  let win_lose := copysign 1 (wrap32 (dealer_value - player_value)) in
  let play_multipliers :=
    house_way ACE_HIGH KING_HIGH QUEEN_HIGH ACE KING dealer_face_up player_value in
  let pair_plus_multipliers := pair_plus_multiplier play_multipliers player_value in
  let ante_multipliers := ante_multiplier QUEEN_HIGH play_multipliers win_lose dealer_value in
  let play_multipliers := play_result QUEEN_HIGH play_multipliers win_lose dealer_value in
  let six_card_multipliers := wrap32 (_six evaluator eval_hand) in
  {| play := play_multipliers;
     ante := ante_multipliers;
     pair_plus := pair_plus_multipliers;
     six_card := six_card_multiplier evaluator six_card_multipliers |}.

(** Line 286: [eval_hands[i]] restricted to one round, the six cards of
    [round_hands[::i+1][:2]]. *)
Definition eval_hand (round_hands : list Hand) (i : nat) : list Z :=
  concat (map cards (take 2 (stride (S i) round_hands))).

(** One round: [values] is the round's row of [splittable_values], dealer
    first. *)
Definition round_multipliers (evaluator : Evaluator)
    (ACE_HIGH KING_HIGH QUEEN_HIGH ACE KING : Z)
    (round_hands : list Hand) (values : list Z) (dealer_face_up : Z) : list Multipliers :=
  match values with
  | [] => []
  | dealer_value :: player_values =>
      imap (fun i player_value =>
              player_multipliers evaluator ACE_HIGH KING_HIGH QUEEN_HIGH ACE KING
                dealer_face_up dealer_value player_value (eval_hand round_hands i))
           player_values
  end.

(** Broadcasting of the rows of the value array against an array of [n]
    rows: the shapes agree, or a single row is repeated [n] times; anything
    else raises. *)
Definition broadcast_rows {A : Type} (n : nat) (rows : list (list A))
    : option (list (list A)) :=
  if decide (length rows = n) then Some rows
  else match rows with
       | [row] => Some (replicate n row)
       | _ => None
       end.

(** [GenerateMultipliers].  [hands] must hold a whole number of rounds
    (line 286), at least one round and one player (the result array of line
    171 cannot have size zero), and [hand_values] a whole number of rows (line
    181) which numpy broadcasts against the rounds: one row of values per
    round, or a single row used for every round. *)
Definition GenerateMultipliers (evaluator : Evaluator)
    (hands : list Hand) (hand_values : list Z) (num_players : nat)
    : option (list (list Multipliers)) :=
  let all_hands := S num_players in
  hand_rounds ← reshape all_hands hands;
  let num_rounds := length hand_rounds in
  guard (num_rounds <> 0 /\ num_players <> 0)%nat;;
  splittable_values ← reshape all_hands hand_values;
  value_rounds ← broadcast_rows num_rounds splittable_values;
  ACE_HIGH ← evaluate_hand [Card.new Card.RA Card.Clubs; Card.new Card.R2 Card.Diamonds;
                            Card.new Card.R4 Card.Diamonds];
  KING_HIGH ← evaluate_hand [Card.new Card.RK Card.Clubs; Card.new Card.R2 Card.Diamonds;
                             Card.new Card.R3 Card.Diamonds];
  QUEEN_HIGH ← evaluate_hand [Card.new Card.RQ Card.Clubs; Card.new Card.R2 Card.Diamonds;
                              Card.new Card.R3 Card.Diamonds];
  let ACE := Card.get_rank_int (Card.new Card.RA Card.Clubs) in
  let KING := Card.get_rank_int (Card.new Card.RK Card.Clubs) in
  let dealer_face_up := stride (all_hands * 3) (concat (map cards hands)) in
  Some (zip_with (fun face_up '(round_hands, values) =>
                    round_multipliers evaluator ACE_HIGH KING_HIGH QUEEN_HIGH ACE KING
                      round_hands values face_up)
                 dealer_face_up (zip hand_rounds value_rounds)).

(** *** AdjustForAction *)

(** [np.absolute] on an [int32] array. *)
Definition absolute32 (x : Z) : Z := wrap32 (Z.abs x).

(** [cumsum]: running totals. *)
Fixpoint cumsum_from (acc : Z) (l : list Z) : list Z :=
  match l with
  | [] => []
  | x :: l' => (acc + x) :: cumsum_from (acc + x) l'
  end.

Definition cumsum (l : list Z) : list Z := cumsum_from 0 l.

(** The store of a [float64] value into an [int32] array: the value itself
    when it fits (integers of that size are exact in [float64]), and [-2^31]
    when it does not.  The bank is an integer of at most 64 bits, as the
    driver passes it. *)
Definition to_int32 (x : Z) : Z :=
  if (- 2 ^ 31 <=? x) && (x <? 2 ^ 31) then x else - 2 ^ 31.

(** The loop of lines 369-372 over the remaining spots; [prev] is
    [cum_payout[i-1]] and each item pairs [payouts[i]] with [cum_payout[i]].
    The difference [bank_amount - cum_payout[:,i-1]] is taken only when the
    bank lies between two [int32] running totals, where it is an [int32]
    array, and the [float64] result of [np.where] is stored back into
    [int32]. *)
Fixpoint adjust_rest (bank_amount prev : Z) (items : list (Z * Z)) : list Z :=
  match items with
  | [] => []
  | (payout, cum) :: items' =>
      (if cum <? bank_amount then payout
       else if prev <? bank_amount
            then to_int32 (copysign (wrap32 (bank_amount - prev)) payout)
            else 0)
      :: adjust_rest bank_amount cum items'
  end.

(** Lines 358-372 on one row of the [(num_rounds, num_players*4)] array.
    Rows without spots make arrays of size zero, which [np.memmap] refuses,
    and have no column [0]. *)
Definition adjust_row (bank_amount : Z) (payouts : list Z) : option (list Z) :=
  let cum_payout := map wrap32 (cumsum (map absolute32 payouts)) in
  match zip payouts cum_payout with
  | [] => None
  | (payout, cum) :: items =>
      Some ((if cum <? bank_amount then payout
             else to_int32 (copysign bank_amount payout))
            :: adjust_rest bank_amount cum items)
  end.

(** The four betting spots of a seat, in array order. *)
Definition spots (m : Multipliers) : list Z :=
  [play m; ante m; pair_plus m; six_card m].

(** [reshape(num_players, 4)] of a settled row. *)
Fixpoint seats (row : list Z) : list Multipliers :=
  match row with
  | a :: b :: c :: d :: row' =>
      {| play := a; ante := b; pair_plus := c; six_card := d |} :: seats row'
  | _ => []
  end.

(** The rounds of [AdjustForAction], settled independently. *)
Definition adjust_rounds (payouts : list (list Multipliers)) (bank_amount : Z)
    : option (list (list Multipliers)) :=
  mapM (fun round => adj ← adjust_row bank_amount (concat (map spots round));
                     Some (seats adj)) payouts.

(** [AdjustForAction] on a [(num_rounds, num_players, 4)] array of dollar
    payouts.  Without rounds the working arrays of lines 354-355 have size
    zero and [np.memmap] raises. *)
Definition AdjustForAction (payouts : list (list Multipliers)) (bank_amount : Z)
    : option (list (list Multipliers)) :=
  match payouts with
  | [] => None
  | _ :: _ => adjust_rounds payouts bank_amount
  end.

End ThreeCardPoker.

(** ** tcbanking.py: the simulation driver *)

Module TCBanking.

Import ThreeCardPoker.

Definition BANK_AMOUNT : Z := 5000.
Definition NUM_PLAYERS : nat := 5.

(** [bet_size = np.array([20,20,20,20])], per spot [play, ante, pair-plus,
    6-card]. *)
Definition bet_size : Multipliers :=
  {| play := 20; ante := 20; pair_plus := 20; six_card := 20 |}.

(** [multipliers[:] *= bet_size]: an in-place product in the [int32] array,
    the bets broadcast over the last axis. *)
Definition place_bets (bets m : Multipliers) : Multipliers :=
  {| play := wrap32 (play m * play bets);
     ante := wrap32 (ante m * ante bets);
     pair_plus := wrap32 (pair_plus m * pair_plus bets);
     six_card := wrap32 (six_card m * six_card bets) |}.

(** [adj_payouts[:] *= -1]: the player/dealer's side of every payout. *)
Definition dealer_side (m : Multipliers) : Multipliers :=
  {| play := wrap32 (play m * -1);
     ante := wrap32 (ante m * -1);
     pair_plus := wrap32 (pair_plus m * -1);
     six_card := wrap32 (six_card m * -1) |}.

(** Lines 43-56 for a given array of dealt hands: evaluate, generate the
    multipliers, place the bets, settle against the bank and take the
    player/dealer's side. *)
Definition adj_payouts (evaluator : Evaluator) (hands : list Hand)
    : option (list (list Multipliers)) :=
  values ← evaluate_hands hands;
  multipliers ← GenerateMultipliers evaluator hands values NUM_PLAYERS;
  let multipliers := map (map (place_bets bet_size)) multipliers in
  adj_payouts ← AdjustForAction multipliers BANK_AMOUNT;
  Some (map (map dealer_side) adj_payouts).

(** Line 99: [adj_payouts.sum(axis=2).sum(axis=1)], summed in the platform
    integer. *)
Definition returns_by_round (evaluator : Evaluator) (hands : list Hand)
    : option (list Z) :=
  adj ← adj_payouts evaluator hands;
  Some (map (fun round => foldr Z.add 0 (map (fun m => foldr Z.add 0 (spots m)) round)) adj).

End TCBanking.

(** * Vocabulary of the properties *)

Section Vocabulary.

Import Card ThreeCardLookup ThreeCardPoker.

(** ** Finite quantification over ranks and suits *)

Definition forall_rank (f : Rank -> bool) : bool := forallb f all_ranks.
Definition forall_suit (f : Suit -> bool) : bool := forallb f all_suits.
Definition exists_rank (f : Rank -> bool) : bool := existsb f all_ranks.

(** ** Rank triples and hands *)

(** The key of a rank triple: the product of the three rank primes. *)
Definition rank_key (r1 r2 r3 : Rank) : Z :=
  rank_prime r1 * rank_prime r2 * rank_prime r3.

(** A canonical listing of a rank triple (a counting sort), and the table
    sending each key to the canonical listing of a triple that produces it. *)
Definition canon (r1 r2 r3 : Rank) : list Rank :=
  flat_map (fun r => filter (fun x => x = r) [r1; r2; r3]) all_ranks.

Definition canon_table : gmap Z (list Rank) :=
  foldr (fun r1 m => foldr (fun r2 m => foldr (fun r3 m =>
           <[rank_key r1 r2 r3 := canon r1 r2 r3]> m) m all_ranks) m all_ranks)
        ∅ all_ranks.

(** The three cards share a suit. *)
Definition monochrome (s0 s1 s2 : Suit) : bool :=
  bool_decide (s0 = s1) && bool_decide (s1 = s2).

(** A hand of three well-formed cards. *)
Definition valid_hand (h : Hand) : Prop :=
  exists r0 s0 r1 s1 r2 s2, h = (new r0 s0, new r1 s1, new r2 s2).

(** ** Cells of the multiplier array *)

(** The values of the thresholds computed at lines 193-198. *)
Definition ACE_HIGH : Z := 936.
Definition KING_HIGH : Z := 990.
Definition QUEEN_HIGH : Z := 1034.
Definition ACE : Z := 12.
Definition KING : Z := 11.

(** The cell computed for a player from the dealer's face-up card, the two
    hand values and the six cards. *)
Definition cell (evaluator : Evaluator) (dealer_face_up dealer_value player_value : Z)
    (six_cards : list Z) : Multipliers :=
  player_multipliers evaluator ACE_HIGH KING_HIGH QUEEN_HIGH ACE KING
    dealer_face_up dealer_value player_value six_cards.

(** The row of [hand_values] used for round [r]: row [r], or row [0] when
    [hand_values] holds a single round that is broadcast over all rounds. *)
Definition value_round (hand_values : list Z) (num_players r : nat) : nat :=
  if decide (length hand_values = S num_players) then 0%nat else r.

(** [GenerateMultipliers(...)[r, i]]. *)
Definition multipliers_at (evaluator : Evaluator) (hands : list Hand)
    (hand_values : list Z) (num_players r i : nat) : option Multipliers :=
  multipliers ← GenerateMultipliers evaluator hands hand_values num_players;
  row ← multipliers !! r;
  row !! i.

(** The house-way decision taken for a cell. *)
Definition decision (dealer_hand : Hand) (player_value : Z) : Z :=
  house_way ACE_HIGH KING_HIGH QUEEN_HIGH ACE KING dealer_hand.1.1 player_value.

(** A sample oracle carrying the band maxima of the deuces lookup table and
    a fixed strength, and sample hands used to instantiate the theorems. *)
Definition sample_evaluator (strength : Z) : Evaluator :=
  {| _six := fun _ => strength;
     MAX_STRAIGHT_FLUSH := 10;
     MAX_FOUR_OF_A_KIND := 166;
     MAX_FULL_HOUSE := 322;
     MAX_FLUSH := 1599;
     MAX_STRAIGHT := 1609;
     MAX_THREE_OF_A_KIND := 2467 |}.

Definition aces_with_king_1 : Hand := (new RA Clubs, new RA Diamonds, new RK Hearts).
Definition aces_with_king_2 : Hand := (new RA Spades, new RA Hearts, new RK Diamonds).
Definition jack_high : Hand := (new RJ Clubs, new R7 Diamonds, new R3 Diamonds).

(** ** Totals of a settled round *)

Definition total (l : list Z) : Z := foldr Z.add 0 l.

(** The running total of absolute payouts of a row stays representable. *)
Definition fits_int32 (row : list Z) : Prop := total (map Z.abs row) <= INT32_MAX.

(** ** Hand categories *)

Inductive Category : Type :=
  | StraightFlush | Trips | Straight | Flush | Pair | HighCard.

(** The inclusive band of values the class constants assign to a category. *)
Definition band (c : Category) : Z * Z :=
  match c with
  | StraightFlush => (MIN_STRAIGHT_FLUSH, ThreeCardLookup.MAX_STRAIGHT_FLUSH)
  | Trips => (MIN_TRIPS, MAX_TRIPS)
  | Straight => (MIN_STRAIGHT, ThreeCardLookup.MAX_STRAIGHT)
  | Flush => (MIN_FLUSH, ThreeCardLookup.MAX_FLUSH)
  | Pair => (MIN_PAIR, MAX_PAIR)
  | HighCard => (MIN_HIGH_CARD, MAX_HIGH_CARD)
  end.

Definition in_band (c : Category) (v : Z) : Prop := (band c).1 <= v <= (band c).2.

(** The highest, middle and lowest rank number of a triple. *)
Definition high_rank (r1 r2 r3 : Rank) : Z :=
  Z.max (rank_int r1) (Z.max (rank_int r2) (rank_int r3)).
Definition low_rank (r1 r2 r3 : Rank) : Z :=
  Z.min (rank_int r1) (Z.min (rank_int r2) (rank_int r3)).
Definition mid_rank (r1 r2 r3 : Rank) : Z :=
  rank_int r1 + rank_int r2 + rank_int r3 - high_rank r1 r2 r3 - low_rank r1 r2 r3.

(** Ace, deuce, trey: the lowest straight. *)
Definition wheel (r1 r2 r3 : Rank) : bool :=
  (low_rank r1 r2 r3 =? 0) && (mid_rank r1 r2 r3 =? 1) && (high_rank r1 r2 r3 =? 12).

(** Three ranks in sequence, the ace playing high or low. *)
Definition consecutive (r1 r2 r3 : Rank) : bool :=
  (high_rank r1 r2 r3 =? mid_rank r1 r2 r3 + 1) &&
  (mid_rank r1 r2 r3 =? low_rank r1 r2 r3 + 1) || wheel r1 r2 r3.

(** The poker category of three ranks, suits ignored. *)
Definition rank_category (r1 r2 r3 : Rank) : Category :=
  if bool_decide (r1 = r2) && bool_decide (r2 = r3) then Trips
  else if bool_decide (r1 = r2) || bool_decide (r2 = r3) || bool_decide (r1 = r3) then Pair
  else if consecutive r1 r2 r3 then Straight
  else HighCard.

(** The poker category of three cards. *)
Definition hand_category (r1 r2 r3 : Rank) (s1 s2 s3 : Suit) : Category :=
  match rank_category r1 r2 r3, monochrome s1 s2 s3 with
  | Straight, true => StraightFlush
  | HighCard, true => Flush
  | c, _ => c
  end.

(** Strictly descending ranks, and the lexicographic order on such triples. *)
Definition descending (r1 r2 r3 : Rank) : bool :=
  (rank_int r2 <? rank_int r1) && (rank_int r3 <? rank_int r2).

Definition lex_higher (r1 r2 r3 r1' r2' r3' : Rank) : bool :=
  (rank_int r1' <? rank_int r1) ||
  (rank_int r1' =? rank_int r1) &&
    ((rank_int r2' <? rank_int r2) ||
     (rank_int r2' =? rank_int r2) && (rank_int r3' <? rank_int r3)).

(** ** Hands as lists of cards *)

(** The product of the low bytes and the conjunction of all cards of a hand
    of any length: what the loop of [evaluate_hand] accumulates. *)
Definition low_byte_product (hand : list Z) : Z :=
  foldr (fun card acc => Z.land card 0xFF * acc) 1 hand.

Definition card_conjunction (hand : list Z) : Z := foldr Z.land (-1) hand.

Definition rank_product (ranks : list Rank) : Z :=
  foldr (fun r acc => rank_prime r * acc) 1 ranks.

(** A well-formed card given by its rank and suit. *)
Definition card_of (c : Rank * Suit) : Z := new c.1 c.2.

(** Categories from strongest ([0]) to weakest. *)
Definition strength (c : Category) : Z :=
  match c with
  | StraightFlush => 0 | Trips => 1 | Straight => 2 | Flush => 3 | Pair => 4
  | HighCard => 5
  end.

(** ** A sample deal for the driver *)

(** One round: the dealer's hand and five players' hands. *)
Definition sample_deal : list Hand :=
  [ (new RQ Spades, new R9 Hearts, new R4 Clubs);
    (new RA Clubs, new RA Diamonds, new RK Hearts);
    (new RJ Clubs, new R7 Diamonds, new R3 Diamonds);
    (new RK Spades, new RQ Diamonds, new R2 Clubs);
    (new R5 Hearts, new R6 Hearts, new R7 Hearts);
    (new RT Spades, new RT Clubs, new R2 Hearts) ].

End Vocabulary.

(** * Properties *)

(** ** Finite quantification over ranks and suits *)

Section Enumeration.

Import Card.

Lemma forall_rank_spec (f : Rank -> bool) :
  forall_rank f = true -> forall r, f r = true.
Proof.
  unfold forall_rank, all_ranks. cbn [forallb].
  intros H r. repeat (apply andb_prop in H; destruct H as [? H]).
  destruct r; assumption.
Qed.

Lemma forall_suit_spec (f : Suit -> bool) :
  forall_suit f = true -> forall s, f s = true.
Proof.
  unfold forall_suit, all_suits. cbn [forallb].
  intros H s. repeat (apply andb_prop in H; destruct H as [? H]).
  destruct s; assumption.
Qed.

Lemma exists_rank_spec (f : Rank -> bool) :
  exists_rank f = true -> exists r, f r = true.
Proof.
  unfold exists_rank. intros H. apply existsb_exists in H.
  destruct H as (r & _ & H). exists r. exact H.
Qed.

End Enumeration.

(** ** The rank table *)

Section RankTable.

Import Card ThreeCardLookup.

Lemma lookup_init : lookup = init ∅.
Proof. vm_compute. reflexivity. Qed.

(** The constructor's [PRIMES] list agrees with the card primes. *)
Lemma PRIMES_rank_prime (r : Rank) :
  PRIMES (S (Z.to_nat (rank_int r))) = rank_prime r.
Proof. destruct r; reflexivity. Qed.

Lemma lookup_no_gaps (r1 r2 r3 : Rank) :
  is_Some (lookup !! rank_key r1 r2 r3).
Proof.
  assert (H : forall_rank (fun r1 => forall_rank (fun r2 => forall_rank (fun r3 =>
              bool_decide (is_Some (lookup !! rank_key r1 r2 r3))))) = true)
    by (vm_compute; reflexivity).
  pose proof (forall_rank_spec _ (forall_rank_spec _ (forall_rank_spec _ H r1) r2) r3) as H'.
  cbv beta in H'. apply bool_decide_eq_true in H'. exact H'.
Qed.

Lemma canon_table_lookup (r1 r2 r3 : Rank) :
  canon_table !! rank_key r1 r2 r3 = Some (canon r1 r2 r3).
Proof.
  assert (H : forall_rank (fun r1 => forall_rank (fun r2 => forall_rank (fun r3 =>
              bool_decide (canon_table !! rank_key r1 r2 r3 = Some (canon r1 r2 r3))))) = true)
    by (vm_compute; reflexivity).
  pose proof (forall_rank_spec _ (forall_rank_spec _ (forall_rank_spec _ H r1) r2) r3) as H'.
  cbv beta in H'. apply bool_decide_eq_true in H'. exact H'.
Qed.

Lemma canon_perm (r1 r2 r3 : Rank) : [r1; r2; r3] ≡ₚ canon r1 r2 r3.
Proof.
  assert (H : forall_rank (fun r1 => forall_rank (fun r2 => forall_rank (fun r3 =>
              bool_decide ([r1; r2; r3] ≡ₚ canon r1 r2 r3)))) = true)
    by (vm_compute; reflexivity).
  pose proof (forall_rank_spec _ (forall_rank_spec _ (forall_rank_spec _ H r1) r2) r3) as H'.
  cbv beta in H'. apply bool_decide_eq_true in H'. exact H'.
Qed.

Lemma lookup_no_collisions (r1 r2 r3 r1' r2' r3' : Rank) :
  rank_key r1 r2 r3 = rank_key r1' r2' r3' ->
  [r1; r2; r3] ≡ₚ [r1'; r2'; r3'].
Proof.
  intros E.
  pose proof (canon_table_lookup r1 r2 r3) as H1.
  pose proof (canon_table_lookup r1' r2' r3') as H2.
  rewrite E in H1. rewrite H1 in H2. injection H2 as H2.
  rewrite (canon_perm r1 r2 r3), H2. symmetry. apply canon_perm.
Qed.

Lemma rank_key_perm (l l' : list Rank) :
  l ≡ₚ l' -> foldr Z.mul 1 (rank_prime <$> l) = foldr Z.mul 1 (rank_prime <$> l').
Proof.
  induction 1; cbn; lia.
Qed.

Lemma lookup_keys_are_rank_keys (k v : Z) :
  lookup !! k = Some v -> exists r1 r2 r3, k = rank_key r1 r2 r3.
Proof.
  assert (H : forallb (fun kv : Z * Z =>
              exists_rank (fun r1 => exists_rank (fun r2 => exists_rank (fun r3 =>
                Z.eqb kv.1 (rank_key r1 r2 r3))))) (map_to_list lookup) = true)
    by (vm_compute; reflexivity).
  intros Hk. apply elem_of_map_to_list in Hk. apply list_elem_of_In in Hk.
  rewrite forallb_forall in H. specialize (H _ Hk). cbn [fst] in H.
  apply exists_rank_spec in H. destruct H as [r1 H].
  apply exists_rank_spec in H. destruct H as [r2 H].
  apply exists_rank_spec in H. destruct H as [r3 H].
  exists r1, r2, r3. apply Z.eqb_eq. exact H.
Qed.

(** The dictionary is a class attribute: constructing the table again over
    the filled dictionary leaves it unchanged. *)
Lemma init_lookup : init lookup = lookup.
Proof. vm_compute. reflexivity. Qed.

Lemma lookup_size : size lookup = 455%nat.
Proof. vm_compute. reflexivity. Qed.

(** The number of table entries whose value lies in a band. *)
Lemma lookup_band_counts :
  let count (lo hi : Z) : nat :=
    length (filter (fun kv : Z * Z => lo <= kv.2 <= hi) (map_to_list lookup)) in
  count MIN_STRAIGHT MAX_STRAIGHT = 12%nat /\
  count MIN_TRIPS MAX_TRIPS = 13%nat /\
  count MIN_HIGH_CARD MAX_HIGH_CARD = 274%nat /\
  count MIN_PAIR MAX_PAIR = 156%nat.
Proof. repeat split; vm_compute; reflexivity. Qed.

(** C2 (as the claim states the count): the table does not hold 741 entries. *)
Lemma lookup_size_not_741 : size lookup <> 741%nat.
Proof. rewrite lookup_size. discriminate. Qed.

(** C2 (amended): the table built by the constructor holds exactly 455
    entries, one per 3-rank combination (12 straights, 13 trips, 274 high
    cards and 156 pairs, see [lookup_band_counts]).  Every rank triple's
    prime product
    is a key (no gaps), two triples share a key only when they are the same
    combination (no collisions), every key is the product of some triple,
    and the 455 keys index 455 distinct unsuited values. *)
Theorem lookup_table_combinations :
  size lookup = 455%nat /\
  (12 + 13 + 274 + 156 = 455)%nat /\
  (forall r1 r2 r3 : Rank, is_Some (lookup !! rank_key r1 r2 r3)) /\
  (forall r1 r2 r3 r1' r2' r3' : Rank,
     rank_key r1 r2 r3 = rank_key r1' r2' r3' <-> [r1; r2; r3] ≡ₚ [r1'; r2'; r3']) /\
  (forall k : Z, is_Some (lookup !! k) -> exists r1 r2 r3, k = rank_key r1 r2 r3) /\
  NoDup (map_to_list lookup).*2.
Proof.
  split; [exact lookup_size|].
  split; [reflexivity|].
  split; [exact lookup_no_gaps|].
  split; [|split].
  - intros r1 r2 r3 r1' r2' r3'. split.
    + apply lookup_no_collisions.
    + intros Hp. apply rank_key_perm in Hp. cbn in Hp. unfold rank_key. lia.
  - intros k [v Hv]. exact (lookup_keys_are_rank_keys k v Hv).
  - apply (bool_decide_eq_true_1 (NoDup (map_to_list lookup).*2)).
    vm_compute. reflexivity.
Qed.

End RankTable.

(** ** Hand evaluation *)

Section HandEvaluator.

Import Card ThreeCardLookup ThreeCardPoker.

Lemma card_low_byte (r : Rank) (s : Suit) : Z.land (new r s) 0xFF = rank_prime r.
Proof. destruct r, s; reflexivity. Qed.

Lemma card_suit_nibble (r : Rank) (s : Suit) :
  Z.land 0xF000 (new r s) = Z.shiftl (suit_int s) 12.
Proof. destruct r, s; reflexivity. Qed.

Lemma card_rank_int (r : Rank) (s : Suit) : get_rank_int (new r s) = rank_int r.
Proof. destruct r, s; reflexivity. Qed.

(** Masking once at the start of the loop is masking every card. *)
Lemma suit_mask_distributes (m a b c : Z) :
  Z.land (Z.land (Z.land m a) b) c =
  Z.land (Z.land (Z.land m a) (Z.land m b)) (Z.land m c).
Proof.
  apply Z.bits_inj'. intros n _. rewrite !Z.land_spec.
  destruct (Z.testbit m n), (Z.testbit a n), (Z.testbit b n), (Z.testbit c n);
    reflexivity.
Qed.

Lemma suit_bits_monochrome (s0 s1 s2 : Suit) :
  Z.land (Z.land (Z.shiftl (suit_int s0) 12) (Z.shiftl (suit_int s1) 12))
         (Z.shiftl (suit_int s2) 12) = 0 <-> monochrome s0 s1 s2 = false.
Proof. destruct s0, s1, s2; vm_compute; split; congruence. Qed.

(** [evaluate_hand] on three well-formed cards, in closed form. *)
Lemma evaluate_hand_cards (r0 r1 r2 : Rank) (s0 s1 s2 : Suit) :
  evaluate_hand [new r0 s0; new r1 s1; new r2 s2] =
  v ← lookup !! rank_key r0 r1 r2;
  Some (v - (if monochrome s0 s1 s2 then FLUSH_OFFSET else 0)).
Proof.
  unfold evaluate_hand. cbn [foldl fst snd].
  rewrite !card_low_byte, suit_mask_distributes, !card_suit_nibble.
  replace (1 * rank_prime r0 * rank_prime r1 * rank_prime r2)
    with (rank_key r0 r1 r2) by (unfold rank_key; lia).
  destruct (lookup !! rank_key r0 r1 r2) as [v|]; [|reflexivity].
  cbn [mbind option_bind]. f_equal.
  pose proof (suit_bits_monochrome s0 s1 s2) as Hm.
  destruct (decide _) as [E|E], (monochrome s0 s1 s2); unfold FLUSH_OFFSET; lia.
Qed.

(** Three distinct cards, as dealt from one deck, evaluate within
    [1 .. MAX_HIGH_CARD]: a suited hand has three different ranks, whose
    table entry is at least [MIN_STRAIGHT]. *)
Lemma evaluate_hand_dealt_range (r0 r1 r2 : Rank) (s0 s1 s2 : Suit) :
  NoDup [(r0, s0); (r1, s1); (r2, s2)] ->
  exists v, evaluate_hand [new r0 s0; new r1 s1; new r2 s2] = Some v /\
            1 <= v <= MAX_HIGH_CARD.
Proof.
  intros Hnd. rewrite evaluate_hand_cards.
  assert (H : forall_rank (fun r0 => forall_rank (fun r1 => forall_rank (fun r2 =>
              match lookup !! rank_key r0 r1 r2 with
              | Some v => (13 <=? v) && (v <=? 1146) &&
                          (bool_decide (r0 = r1 \/ r1 = r2 \/ r0 = r2) || (431 <=? v))
              | None => false
              end))) = true)
    by (vm_compute; reflexivity).
  pose proof (forall_rank_spec _ (forall_rank_spec _ (forall_rank_spec _ H r0) r1) r2) as H'.
  cbv beta in H'. destruct (lookup !! rank_key r0 r1 r2) as [v|]; [|discriminate].
  cbn [mbind option_bind]. eexists. split; [reflexivity|].
  apply andb_prop in H'. destruct H' as [H1 H2].
  apply andb_prop in H1. destruct H1 as [Hlo Hhi].
  apply Z.leb_le in Hlo, Hhi. unfold MAX_HIGH_CARD, FLUSH_OFFSET.
  destruct (monochrome s0 s1 s2) eqn:Hm; [|lia].
  apply andb_prop in Hm. destruct Hm as [E1 E2].
  apply bool_decide_eq_true in E1, E2. subst s1 s2.
  apply orb_prop in H2. destruct H2 as [Heq|Hge]; [|apply Z.leb_le in Hge; lia].
  exfalso. apply bool_decide_eq_true in Heq.
  apply NoDup_cons in Hnd. destruct Hnd as [Hn0 Hnd].
  apply NoDup_cons in Hnd. destruct Hnd as [Hn1 _].
  clear H Hlo Hhi.
  destruct Heq as [E | [E | E]]; subst.
  - apply Hn0. left.
  - apply Hn1. left.
  - apply Hn0. right. left.
Qed.

(** C7: on three well-formed cards the value is the table entry of the prime
    product when the cards do not share a suit and exactly [FLUSH_OFFSET = 430]
    less when they do; so the suited value of a rank triple is 430 below its
    unsuited value, and two hands of the same ranks and the same flush status
    have the same value whatever their suits. *)
Theorem evaluate_hand_flush_offset :
  FLUSH_OFFSET = 430 /\
  (forall (r0 r1 r2 : Rank) (s0 s1 s2 : Suit),
     exists v, lookup !! rank_key r0 r1 r2 = Some v /\
       evaluate_hand [new r0 s0; new r1 s1; new r2 s2] =
       Some (if monochrome s0 s1 s2 then v - 430 else v)) /\
  (forall (r0 r1 r2 : Rank) (s0 s1 s2 t0 t1 t2 : Suit),
     monochrome s0 s1 s2 = true -> monochrome t0 t1 t2 = false ->
     exists v, evaluate_hand [new r0 t0; new r1 t1; new r2 t2] = Some v /\
       evaluate_hand [new r0 s0; new r1 s1; new r2 s2] = Some (v - 430)) /\
  (forall (r0 r1 r2 : Rank) (s0 s1 s2 t0 t1 t2 : Suit),
     monochrome s0 s1 s2 = monochrome t0 t1 t2 ->
     evaluate_hand [new r0 s0; new r1 s1; new r2 s2] =
     evaluate_hand [new r0 t0; new r1 t1; new r2 t2]).
Proof.
  split; [reflexivity|]. split; [|split].
  - intros r0 r1 r2 s0 s1 s2.
    destruct (lookup_no_gaps r0 r1 r2) as [v Hv]. exists v. split; [exact Hv|].
    rewrite evaluate_hand_cards, Hv. cbn [mbind option_bind].
    destruct (monochrome s0 s1 s2); f_equal; unfold FLUSH_OFFSET; lia.
  - intros r0 r1 r2 s0 s1 s2 t0 t1 t2 Hs Ht.
    destruct (lookup_no_gaps r0 r1 r2) as [v Hv]. exists v.
    rewrite !evaluate_hand_cards, Hv, Hs, Ht. cbn [mbind option_bind].
    split; f_equal; unfold FLUSH_OFFSET; lia.
  - intros r0 r1 r2 s0 s1 s2 t0 t1 t2 E.
    rewrite !evaluate_hand_cards, E. reflexivity.
Qed.

(** *** The vectorized evaluator *)

Lemma wrap32_small (x : Z) : - 2 ^ 31 <= x < 2 ^ 31 -> wrap32 x = x.
Proof. intros H. unfold wrap32. rewrite Z.mod_small; lia. Qed.

Lemma to_int32_small (x : Z) : - 2 ^ 31 <= x < 2 ^ 31 -> ThreeCardPoker.to_int32 x = x.
Proof.
  intros H. unfold ThreeCardPoker.to_int32.
  destruct (Z.leb_spec (- 2 ^ 31) x), (Z.ltb_spec x (2 ^ 31)); cbn [andb]; lia.
Qed.

Lemma low_byte_range (c : Z) : 0 <= Z.land c 0xFF < 256.
Proof.
  change 0xFF with (Z.ones 8). rewrite Z.land_ones by lia.
  apply Z.mod_pos_bound. lia.
Qed.

Lemma lookup_value_range (k v : Z) : lookup !! k = Some v -> 13 <= v <= 1146.
Proof.
  assert (H : map_Forall (fun _ v => 13 <= v <= 1146) lookup).
  { apply (bool_decide_eq_true_1 (map_Forall (fun _ v : Z => 13 <= v <= 1146) lookup)).
    vm_compute. reflexivity. }
  intros Hk. exact (H k v Hk).
Qed.

(** The prime product of a row fits the [int32] cells it passes through. *)
Lemma hand_prime_stored (c0 c1 c2 : Z) :
  wrap32 (multiply_reduce
            [wrap32 (Z.land c0 0xFF); wrap32 (Z.land c1 0xFF); wrap32 (Z.land c2 0xFF)]) =
  1 * Z.land c0 0xFF * Z.land c1 0xFF * Z.land c2 0xFF.
Proof.
  pose proof (low_byte_range c0). pose proof (low_byte_range c1).
  pose proof (low_byte_range c2).
  rewrite !(wrap32_small (Z.land _ _)) by lia.
  unfold multiply_reduce. cbn [foldl].
  apply wrap32_small.
  assert (0 <= Z.land c0 255 * Z.land c1 255 <= 255 * 255) by nia.
  nia.
Qed.

(** De Morgan: the complement of the OR of the complements is the AND. *)
Lemma flush_mask_de_morgan (c0 c1 c2 : Z) :
  Z.land (Z.lnot (bitwise_or_reduce [Z.lnot c0; Z.lnot c1; Z.lnot c2])) 0xF000 =
  Z.land (Z.land (Z.land 0xF000 c0) c1) c2.
Proof.
  unfold bitwise_or_reduce. cbn [foldl].
  apply Z.bits_inj'. intros n Hn.
  rewrite !Z.land_spec, Z.lnot_spec, !Z.lor_spec, !Z.lnot_spec, Z.bits_0 by lia.
  destruct (Z.testbit 0xF000 n), (Z.testbit c0 n), (Z.testbit c1 n), (Z.testbit c2 n);
    reflexivity.
Qed.

Lemma evaluate_rows_cons (h : Hand) (hands : list Hand) :
  evaluate_rows (h :: hands) =
  v ← evaluate_hand (cards h); vs ← evaluate_rows hands; Some (v :: vs).
Proof.
  destruct h as [[c0 c1] c2].
  unfold evaluate_rows at 1. cbn [map cards].
  rewrite hand_prime_stored, flush_mask_de_morgan.
  unfold evaluate_hand. cbn [foldl fst snd mapM].
  destruct (lookup !! _) as [v|] eqn:Hv; [|reflexivity].
  cbn [mbind option_bind]. unfold evaluate_rows.
  destruct (mapM _ _) as [vs|]; [|reflexivity].
  cbn [mbind option_bind mret option_ret zip_with]. do 2 f_equal.
  apply lookup_value_range in Hv.
  destruct (decide _); rewrite wrap32_small; unfold FLUSH_OFFSET; lia.
Qed.

Lemma evaluate_rows_mapM (hands : list Hand) :
  evaluate_rows hands = mapM (fun h => evaluate_hand (cards h)) hands.
Proof.
  induction hands as [|h hands IH]; [reflexivity|].
  rewrite evaluate_rows_cons, IH. reflexivity.
Qed.

(** A batch that is not empty is evaluated hand by hand. *)
Lemma evaluate_hands_mapM (hands : list Hand) :
  hands <> [] ->
  evaluate_hands hands = mapM (fun h => evaluate_hand (cards h)) hands.
Proof.
  intros Hne. destruct hands as [|h hands]; [congruence|].
  unfold evaluate_hands. apply evaluate_rows_mapM.
Qed.

Lemma evaluate_hand_valid (h : Hand) :
  valid_hand h -> is_Some (evaluate_hand (cards h)).
Proof.
  intros (r0 & s0 & r1 & s1 & r2 & s2 & ->). cbn [cards].
  rewrite evaluate_hand_cards.
  destruct (lookup_no_gaps r0 r1 r2) as [v ->]. eexists. reflexivity.
Qed.

(** C9: on a batch of well-formed hands that is not empty [evaluate_hands]
    returns an array of the batch's length that holds at each index the value
    [evaluate_hand] returns for the hand at that index.  (An empty batch
    raises, as the arrays of the function cannot have size zero.) *)
Theorem evaluate_hands_per_hand (hands : list Hand) :
  hands <> [] ->
  Forall valid_hand hands ->
  exists values,
    evaluate_hands hands = Some values /\
    length values = length hands /\
    forall (i : nat) (h : Hand),
      hands !! i = Some h -> evaluate_hand (cards h) = values !! i.
Proof.
  intros Hne Hvalid. rewrite evaluate_hands_mapM by exact Hne.
  assert (Hsome : is_Some (mapM (fun h => evaluate_hand (cards h)) hands)).
  { apply mapM_is_Some. eapply Forall_impl; [exact Hvalid|].
    intros h Hh. apply evaluate_hand_valid, Hh. }
  destruct Hsome as [values Hvalues]. exists values. split; [exact Hvalues|].
  apply mapM_Some in Hvalues.
  split; [symmetry; eapply Forall2_length; exact Hvalues|].
  intros i h Hi.
  destruct (Forall2_lookup_l _ _ _ _ _ Hvalues Hi) as (v & Hv & Ev).
  rewrite Ev, Hv. reflexivity.
Qed.

Lemma evaluate_hands_per_hand_witness :
  exists values,
    evaluate_hands [(new RA Clubs, new R2 Diamonds, new R4 Diamonds);
                    (new RK Hearts, new RQ Hearts, new RJ Hearts)] = Some values /\
    length values = 2%nat /\
    forall (i : nat) (h : Hand),
      [(new RA Clubs, new R2 Diamonds, new R4 Diamonds);
       (new RK Hearts, new RQ Hearts, new RJ Hearts)] !! i = Some h ->
      evaluate_hand (cards h) = values !! i.
Proof.
  apply (evaluate_hands_per_hand
           [(new RA Clubs, new R2 Diamonds, new R4 Diamonds);
            (new RK Hearts, new RQ Hearts, new RJ Hearts)]).
  - discriminate.
  - repeat constructor.
    + exists RA, Clubs, R2, Diamonds, R4, Diamonds. reflexivity.
    + exists RK, Hearts, RQ, Hearts, RJ, Hearts. reflexivity.
Defined.

End HandEvaluator.

(** ** Array layout *)

Section Arrays.

Import ThreeCardPoker.

Context {A : Type}.

Lemma stride_from_lookup (k skip j : nat) (l : list A) :
  (1 <= k)%nat -> stride_from k skip l !! j = l !! (skip + j * k)%nat.
Proof.
  intros Hk. revert skip j.
  induction l as [|x l IH]; intros skip j; [reflexivity|].
  destruct skip as [|skip]; cbn [stride_from].
  - destruct j as [|j]; [reflexivity|].
    cbn [lookup list_lookup]. rewrite IH.
    replace (0 + S j * k)%nat with (S (k - 1 + j * k)) by lia. reflexivity.
  - rewrite IH. reflexivity.
Qed.

Lemma stride_lookup (k j : nat) (l : list A) :
  (1 <= k)%nat -> stride k l !! j = l !! (j * k)%nat.
Proof. intros Hk. unfold stride. rewrite stride_from_lookup by exact Hk. reflexivity. Qed.

Lemma reshape_lookup (w r : nat) (l : list A) (rows : list (list A)) (row : list A) :
  reshape w l = Some rows -> rows !! r = Some row ->
  row = take w (drop (r * w) l) /\ length row = w /\
  forall i, (i < w)%nat -> row !! i = l !! (r * w + i)%nat.
Proof.
  unfold reshape. destruct (decide _) as [[Hw Hmod]|]; [|discriminate].
  intros [= <-] Hr.
  apply list_lookup_fmap_Some in Hr. destruct Hr as (r' & Hrow & Hr').
  apply lookup_seq in Hr'. destruct Hr' as [-> Hlt]. cbn [Nat.add] in *.
  assert (Hlen : (r * w + w <= length l)%nat).
  { pose proof (Nat.div_mod_eq (length l) w) as E. rewrite Hmod in E. nia. }
  split; [exact Hrow|]. split.
  - subst row. rewrite length_take, length_drop. lia.
  - intros i Hi. subst row. rewrite lookup_take_lt by exact Hi.
    apply lookup_drop.
Qed.

Lemma reshape_length (w : nat) (l : list A) (rows : list (list A)) :
  reshape w l = Some rows -> length rows = (length l / w)%nat.
Proof.
  unfold reshape. destruct (decide _); [|discriminate].
  intros [= <-]. rewrite length_map, length_seq. reflexivity.
Qed.

Lemma reshape_exact (w : nat) (l : list A) (rows : list (list A)) :
  reshape w l = Some rows -> length l = (length rows * w)%nat.
Proof.
  unfold reshape. destruct (decide _) as [[Hw Hmod]|]; [|discriminate].
  intros [= <-]. rewrite length_map, length_seq.
  pose proof (Nat.div_mod_eq (length l) w) as E. rewrite Hmod in E. lia.
Qed.

Lemma reshape_is_Some (w : nat) (l : list A) :
  (w <> 0)%nat -> (length l `mod` w = 0)%nat -> is_Some (reshape w l).
Proof.
  intros Hw Hm. unfold reshape. rewrite decide_True by (split; assumption).
  eexists. reflexivity.
Qed.

Lemma take_2_lookup (l : list A) (a b : A) :
  l !! 0%nat = Some a -> l !! 1%nat = Some b -> take 2 l = [a; b].
Proof.
  destruct l as [|x [|y l]]; cbn; try discriminate.
  intros [= ->] [= ->]. reflexivity.
Qed.

End Arrays.

Section HandLayout.

Import ThreeCardPoker.

Lemma first_card_lookup (hands : list Hand) (j : nat) :
  concat (map cards hands) !! (j * 3)%nat = (fun h : Hand => h.1.1) <$> hands !! j.
Proof.
  revert j. induction hands as [|[[c0 c1] c2] hands IH]; intros j; [reflexivity|].
  destruct j as [|j]; [reflexivity|].
  cbn [map concat cards]. exact (IH j).
Qed.

End HandLayout.

(** ** Wager multipliers *)

Section WagerEngine.

Import Card ThreeCardLookup ThreeCardPoker.

Lemma ACE_HIGH_eval :
  evaluate_hand [new RA Clubs; new R2 Diamonds; new R4 Diamonds] = Some ACE_HIGH.
Proof. vm_compute. reflexivity. Qed.

Lemma KING_HIGH_eval :
  evaluate_hand [new RK Clubs; new R2 Diamonds; new R3 Diamonds] = Some KING_HIGH.
Proof. vm_compute. reflexivity. Qed.

Lemma QUEEN_HIGH_eval :
  evaluate_hand [new RQ Clubs; new R2 Diamonds; new R3 Diamonds] = Some QUEEN_HIGH.
Proof. vm_compute. reflexivity. Qed.

(** The row of values a round is given, in terms of the flat array. *)
Lemma broadcast_rows_lookup (num_players n r : nat) (hand_values : list Z)
    (svals vrounds : list (list Z)) (values : list Z) :
  reshape (S num_players) hand_values = Some svals ->
  broadcast_rows n svals = Some vrounds ->
  vrounds !! r = Some values ->
  length values = S num_players /\
  forall i, (i < S num_players)%nat ->
    values !! i =
    hand_values !! (value_round hand_values num_players r * S num_players + i)%nat.
Proof.
  intros Hsv Hbr Hvs.
  pose proof (reshape_exact _ _ _ Hsv) as Hex.
  unfold broadcast_rows in Hbr.
  assert (Hrow : svals !! value_round hand_values num_players r = Some values).
  { unfold value_round. destruct (decide (length svals = n)) as [E|E].
    - injection Hbr as <-.
      destruct (decide (length hand_values = S num_players)) as [E1|]; [|exact Hvs].
      assert (length svals = 1%nat) by nia.
      pose proof (lookup_lt_Some _ _ _ Hvs) as Hlt.
      replace r with 0%nat in Hvs by lia. exact Hvs.
    - destruct svals as [|row [|]]; try discriminate. injection Hbr as <-.
      apply lookup_replicate in Hvs. destruct Hvs as [-> _].
      cbn [length] in Hex. rewrite decide_True by lia. reflexivity. }
  destruct (reshape_lookup _ _ _ _ _ Hsv Hrow) as (_ & Hlen & Hl).
  split; assumption.
Qed.

(** A position of the flat value array that exists in round [r] is read by
    round [r]. *)
Lemma value_round_lookup (hand_values : list Z) (num_players r k : nat) (x : Z) :
  hand_values !! (r * S num_players + k)%nat = Some x ->
  value_round hand_values num_players r = r.
Proof.
  intros H. apply lookup_lt_Some in H. unfold value_round.
  destruct (decide _); [nia|reflexivity].
Qed.

Lemma value_round_lookup_0 (hand_values : list Z) (num_players r : nat) (x : Z) :
  hand_values !! (r * S num_players)%nat = Some x ->
  value_round hand_values num_players r = r.
Proof.
  intros H. apply (value_round_lookup hand_values num_players r 0 x).
  rewrite Nat.add_0_r. exact H.
Qed.

(** What [GenerateMultipliers] requires of its arguments, and how the result
    is put together. *)
Lemma GenerateMultipliers_Some (evaluator : Evaluator) (hands : list Hand)
    (hand_values : list Z) (num_players : nat) (multipliers : list (list Multipliers)) :
  GenerateMultipliers evaluator hands hand_values num_players = Some multipliers ->
  exists (hrounds : list (list Hand)) (svals vrounds : list (list Z)),
    reshape (S num_players) hands = Some hrounds /\
    (length hrounds <> 0)%nat /\ (num_players <> 0)%nat /\
    reshape (S num_players) hand_values = Some svals /\
    broadcast_rows (length hrounds) svals = Some vrounds /\
    multipliers =
      zip_with (fun face_up '(round_hands, values) =>
                  round_multipliers evaluator ACE_HIGH KING_HIGH QUEEN_HIGH ACE KING
                    round_hands values face_up)
               (stride (S num_players * 3) (concat (map cards hands)))
               (zip hrounds vrounds).
Proof.
  unfold GenerateMultipliers.
  destruct (reshape (S num_players) hands) as [hrounds|] eqn:Hhr; [|discriminate].
  cbn [mbind option_bind].
  destruct (guard _) as [[Hrounds Hplayers]|]; [|discriminate]. cbn [mbind option_bind].
  destruct (reshape (S num_players) hand_values) as [svals|] eqn:Hsv; [|discriminate].
  cbn [mbind option_bind].
  destruct (broadcast_rows _ svals) as [vrounds|] eqn:Hbr; [|discriminate].
  cbn [mbind option_bind].
  rewrite ACE_HIGH_eval, KING_HIGH_eval, QUEEN_HIGH_eval. cbn [mbind option_bind].
  intros [= <-]. exists hrounds, svals, vrounds. repeat split; assumption.
Qed.

(** Where a cell of the result comes from: round [r] starts at flat index
    [r * (num_players + 1)] with the dealer's hand, player [i] follows at
    offset [i + 1], the values are read at the same places of the round's
    row of values, the face-up card is the dealer's first card and the oracle
    sees the dealer's three cards followed by the player's. *)
Lemma GenerateMultipliers_cell (evaluator : Evaluator) (hands : list Hand)
    (hand_values : list Z) (num_players : nat) (multipliers : list (list Multipliers))
    (r i : nat) (row : list Multipliers) (e : Multipliers) :
  GenerateMultipliers evaluator hands hand_values num_players = Some multipliers ->
  multipliers !! r = Some row -> row !! i = Some e ->
  exists (dealer_hand player_hand : Hand) (dealer_value player_value : Z),
    (i < num_players)%nat /\
    hands !! (r * S num_players)%nat = Some dealer_hand /\
    hand_values !! (value_round hand_values num_players r * S num_players)%nat
      = Some dealer_value /\
    hands !! (r * S num_players + S i)%nat = Some player_hand /\
    hand_values !! (value_round hand_values num_players r * S num_players + S i)%nat
      = Some player_value /\
    e = cell evaluator dealer_hand.1.1 dealer_value player_value
             (cards dealer_hand ++ cards player_hand).
Proof.
  intros Hm Hr Hi.
  destruct (GenerateMultipliers_Some _ _ _ _ _ Hm)
    as (hrounds & svals & vrounds & Hhr & _ & _ & Hsv & Hbr & ->).
  apply lookup_zip_with_Some in Hr.
  destruct Hr as (face & [round_hands values] & -> & Hface & Hzip).
  apply lookup_zip_with_Some in Hzip.
  destruct Hzip as (rh & vs & [= <- <-] & Hrh & Hvs).
  destruct (reshape_lookup _ _ _ _ _ Hhr Hrh) as (_ & Hrhlen & Hrhl).
  destruct (broadcast_rows_lookup _ _ _ _ _ _ _ Hsv Hbr Hvs) as (Hvslen & Hvsl).
  destruct values as [|dealer_value player_values]; [discriminate|].
  cbn [round_multipliers] in Hi. rewrite list_lookup_imap in Hi.
  destruct (player_values !! i) as [player_value|] eqn:Hpv; [|discriminate].
  injection Hi as <-.
  assert (Hlt : (i < num_players)%nat).
  { apply lookup_lt_Some in Hpv. cbn [length] in Hvslen. lia. }
  assert (Hdh : is_Some (round_hands !! 0%nat)) by (apply lookup_lt_is_Some; lia).
  assert (Hph : is_Some (round_hands !! S i)) by (apply lookup_lt_is_Some; lia).
  destruct Hdh as [dealer_hand Hdh], Hph as [player_hand Hph].
  exists dealer_hand, player_hand, dealer_value, player_value.
  split; [exact Hlt|].
  split; [rewrite <- (Nat.add_0_r (r * _)), <- Hrhl by lia; exact Hdh|].
  split; [rewrite <- (Nat.add_0_r (_ * _)), <- Hvsl by lia; reflexivity|].
  split; [rewrite <- Hrhl by lia; exact Hph|].
  split; [rewrite <- Hvsl by lia; exact Hpv|].
  assert (Hfc : face = dealer_hand.1.1).
  { rewrite stride_lookup in Hface by lia.
    replace (r * _)%nat with (r * S num_players * 3)%nat in Hface by lia.
    rewrite first_card_lookup in Hface.
    rewrite <- (Nat.add_0_r (r * _)), <- Hrhl, Hdh in Hface by lia.
    injection Hface as <-. reflexivity. }
  assert (Hsix : eval_hand round_hands i = cards dealer_hand ++ cards player_hand).
  { unfold eval_hand. rewrite (take_2_lookup _ dealer_hand player_hand).
    - cbn [map concat]. rewrite app_nil_r. reflexivity.
    - rewrite stride_lookup by lia. exact Hdh.
    - rewrite stride_lookup by lia. rewrite Nat.mul_1_l. exact Hph. }
  unfold cell. rewrite Hfc, Hsix. reflexivity.
Qed.

Lemma multipliers_at_cell (evaluator : Evaluator) (hands : list Hand)
    (hand_values : list Z) (num_players r i : nat) (e : Multipliers) :
  multipliers_at evaluator hands hand_values num_players r i = Some e ->
  exists (dealer_hand player_hand : Hand) (dealer_value player_value : Z),
    (i < num_players)%nat /\
    hands !! (r * S num_players)%nat = Some dealer_hand /\
    hand_values !! (value_round hand_values num_players r * S num_players)%nat
      = Some dealer_value /\
    hands !! (r * S num_players + S i)%nat = Some player_hand /\
    hand_values !! (value_round hand_values num_players r * S num_players + S i)%nat
      = Some player_value /\
    e = cell evaluator dealer_hand.1.1 dealer_value player_value
             (cards dealer_hand ++ cards player_hand).
Proof.
  unfold multipliers_at.
  destruct (GenerateMultipliers _ _ _ _) as [m|] eqn:Hm; [|discriminate].
  cbn [mbind option_bind].
  destruct (m !! r) as [row|] eqn:Hr; [|discriminate].
  cbn [mbind option_bind]. intros Hi.
  exact (GenerateMultipliers_cell _ _ _ _ _ _ _ _ _ Hm Hr Hi).
Qed.

(** A batch of [num_rounds] whole rounds is processed, and every player of
    every round gets a cell. *)
Lemma GenerateMultipliers_defined (evaluator : Evaluator) (hands : list Hand)
    (hand_values : list Z) (num_players num_rounds : nat) :
  length hands = (num_rounds * S num_players)%nat ->
  length hand_values = (num_rounds * S num_players)%nat ->
  forall r i, (r < num_rounds)%nat -> (i < num_players)%nat ->
    is_Some (multipliers_at evaluator hands hand_values num_players r i).
Proof.
  intros Hh Hv r i Hr Hi. unfold multipliers_at, GenerateMultipliers.
  destruct (reshape_is_Some (S num_players) hand_values) as [svals Hsv];
    [lia | rewrite Hv; apply Nat.Div0.mod_mul |].
  destruct (reshape_is_Some (S num_players) hands) as [hrounds Hhr];
    [lia | rewrite Hh; apply Nat.Div0.mod_mul |].
  assert (Hhlen : length hrounds = num_rounds).
  { rewrite (reshape_length _ _ _ Hhr), Hh. apply Nat.div_mul. lia. }
  assert (Hslen : length svals = num_rounds).
  { rewrite (reshape_length _ _ _ Hsv), Hv. apply Nat.div_mul. lia. }
  rewrite Hhr. cbn [mbind option_bind].
  rewrite option_guard_True by lia. cbn [mbind option_bind].
  rewrite Hsv. cbn [mbind option_bind].
  unfold broadcast_rows. rewrite decide_True by congruence. cbn [mbind option_bind].
  rewrite ACE_HIGH_eval, KING_HIGH_eval, QUEEN_HIGH_eval. cbn [mbind option_bind].
  assert (Hsl : is_Some (svals !! r)) by (apply lookup_lt_is_Some; lia).
  assert (Hhl : is_Some (hrounds !! r)) by (apply lookup_lt_is_Some; lia).
  destruct Hsl as [values Hvalues], Hhl as [round_hands Hround].
  destruct (reshape_lookup _ _ _ _ _ Hsv Hvalues) as (_ & Hvlen & _).
  destruct (reshape_lookup _ _ _ _ _ Hhr Hround) as (_ & _ & Hrl).
  assert (Hd : is_Some (hands !! (r * S num_players)%nat))
    by (apply lookup_lt_is_Some; nia).
  destruct Hd as [dealer_hand Hd].
  rewrite lookup_zip_with, stride_lookup by lia.
  replace (r * _)%nat with (r * S num_players * 3)%nat by lia.
  rewrite first_card_lookup, Hd. cbn [fmap option_fmap option_map mbind option_bind].
  rewrite lookup_zip_with, Hround, Hvalues. cbn [mbind option_bind].
  destruct values as [|dealer_value player_values]; [discriminate|].
  cbn [round_multipliers]. rewrite list_lookup_imap.
  destruct (lookup_lt_is_Some_2 player_values i) as [pv Hpv];
    [cbn [length] in Hvlen; lia|].
  rewrite Hpv. eexists. reflexivity.
Qed.

Ltac cell_facts H :=
  apply multipliers_at_cell in H;
  destruct H as (dh & ph & dv & pv & Hlt & Hdh & Hdv & Hph & Hpv & ->).

(** C8: the decision used for every cell is taken from the player's value
    [P] and the first card of the round's dealer hand (the values of round [r]
    are those of row [r] of [hand_values], or of its only row when it holds a
    single round): play if [P] is at most
    the Ace-high threshold; otherwise play if [P] is at most the King-high
    threshold and the face-up rank is below Ace; otherwise play if [P] is at
    most the Queen-high threshold and the face-up rank is below King;
    otherwise fold. *)
Theorem house_way_play_decision :
  (evaluate_hand [new RA Clubs; new R2 Diamonds; new R4 Diamonds] = Some ACE_HIGH /\
   evaluate_hand [new RK Clubs; new R2 Diamonds; new R3 Diamonds] = Some KING_HIGH /\
   evaluate_hand [new RQ Clubs; new R2 Diamonds; new R3 Diamonds] = Some QUEEN_HIGH /\
   get_rank_int (new RA Clubs) = ACE /\ get_rank_int (new RK Clubs) = KING /\
   forall (r : Rank) (s : Suit), get_rank_int (new r s) = rank_int r) /\
  (forall (dealer_hand : Hand) (P : Z),
     decision dealer_hand P =
     if P <=? ACE_HIGH then 1
     else if (P <=? KING_HIGH) && (get_rank_int dealer_hand.1.1 <? ACE) then 1
     else if (P <=? QUEEN_HIGH) && (get_rank_int dealer_hand.1.1 <? KING) then 1
     else 0) /\
  (forall (evaluator : Evaluator) (hands : list Hand) (hand_values : list Z)
          (num_players r i : nat) (e : Multipliers),
     multipliers_at evaluator hands hand_values num_players r i = Some e ->
     exists (dealer_hand : Hand) (D P : Z),
       hands !! (r * S num_players)%nat = Some dealer_hand /\
       hand_values !! (value_round hand_values num_players r * S num_players)%nat
         = Some D /\
       hand_values !! (value_round hand_values num_players r * S num_players + S i)%nat
         = Some P /\
       let win_lose := copysign 1 (wrap32 (D - P)) in
       pair_plus e = pair_plus_multiplier (decision dealer_hand P) P /\
       ante e = ante_multiplier QUEEN_HIGH (decision dealer_hand P) win_lose D /\
       play e = play_result QUEEN_HIGH (decision dealer_hand P) win_lose D).
Proof.
  split; [|split].
  - repeat split; try (vm_compute; reflexivity). apply card_rank_int.
  - intros dealer_hand P. unfold decision, house_way, get_rank_int.
    unfold ACE_HIGH, KING_HIGH, QUEEN_HIGH, ACE, KING.
    destruct (Z.leb_spec P 936), (Z.leb_spec P 990), (Z.leb_spec P 1034),
      (Z.ltb_spec (Z.land (Z.shiftr dealer_hand.1.1 8) 15) 12),
      (Z.ltb_spec (Z.land (Z.shiftr dealer_hand.1.1 8) 15) 11);
      cbn [andb]; try reflexivity; lia.
  - intros evaluator hands hand_values num_players r i e H. cell_facts H.
    exists dh, dv, pv. repeat split; assumption.
Qed.

(** C5: a folded hand has Play [0], Ante [-1] and Pair-Plus [-1]. *)
Theorem fold_forfeits (evaluator : Evaluator) (hands : list Hand)
    (hand_values : list Z) (num_players r i : nat) (e : Multipliers)
    (dealer_hand : Hand) (player_value : Z) :
  multipliers_at evaluator hands hand_values num_players r i = Some e ->
  hands !! (r * S num_players)%nat = Some dealer_hand ->
  hand_values !! (r * S num_players + S i)%nat = Some player_value ->
  decision dealer_hand player_value = 0 ->
  play e = 0 /\ ante e = -1 /\ pair_plus e = -1.
Proof.
  intros H Hd Hp Hfold. cell_facts H.
  rewrite (value_round_lookup _ _ _ _ _ Hp) in Hpv.
  rewrite Hd in Hdh. injection Hdh as <-. rewrite Hp in Hpv. injection Hpv as <-.
  unfold decision in Hfold.
  unfold cell, player_multipliers. cbn [play ante pair_plus].
  rewrite Hfold. unfold play_result, ante_multiplier, pair_plus_multiplier.
  cbn [Z.eqb]. split; [|split]; try reflexivity.
  destruct (dv <=? QUEEN_HIGH); reflexivity.
Qed.

Lemma fold_forfeits_witness :
  exists e,
    multipliers_at (sample_evaluator 7462) [aces_with_king_1; jack_high]
      [717; 1057] 1 0 0 = Some e /\
    play e = 0 /\ ante e = -1 /\ pair_plus e = -1.
Proof.
  eexists. split; [vm_compute; reflexivity|].
  apply (fold_forfeits (sample_evaluator 7462) [aces_with_king_1; jack_high]
           [717; 1057] 1 0 0 _ aces_with_king_1 1057);
    vm_compute; reflexivity.
Defined.

(** C4: the Pair-Plus multiplier of a played hand of value [v], band by
    band; [50] is paid exactly to values at most [1], which among evaluated
    values (all at least [1]) is the single value [1]. *)
Theorem pair_plus_bands (evaluator : Evaluator) (hands : list Hand)
    (hand_values : list Z) (num_players r i : nat) (e : Multipliers)
    (dealer_hand : Hand) (v : Z) :
  multipliers_at evaluator hands hand_values num_players r i = Some e ->
  hands !! (r * S num_players)%nat = Some dealer_hand ->
  hand_values !! (r * S num_players + S i)%nat = Some v ->
  decision dealer_hand v <> 0 ->
  (ThreeCardLookup.MAX_PAIR = 872 /\ ThreeCardLookup.MAX_FLUSH = 716 /\ ThreeCardLookup.MAX_STRAIGHT = 442 /\ ThreeCardLookup.MAX_TRIPS = 25 /\
   ThreeCardLookup.MAX_STRAIGHT_FLUSH = 12) /\
  (v > ThreeCardLookup.MAX_PAIR -> pair_plus e = -1) /\
  (ThreeCardLookup.MAX_FLUSH < v <= ThreeCardLookup.MAX_PAIR -> pair_plus e = 1) /\
  (ThreeCardLookup.MAX_STRAIGHT < v <= ThreeCardLookup.MAX_FLUSH -> pair_plus e = 3) /\
  (ThreeCardLookup.MAX_TRIPS < v <= ThreeCardLookup.MAX_STRAIGHT -> pair_plus e = 6) /\
  (ThreeCardLookup.MAX_STRAIGHT_FLUSH < v <= ThreeCardLookup.MAX_TRIPS -> pair_plus e = 30) /\
  (1 < v <= ThreeCardLookup.MAX_STRAIGHT_FLUSH -> pair_plus e = 40) /\
  (pair_plus e = 50 <-> v <= 1) /\
  (1 <= v -> (pair_plus e = 50 <-> v = 1)).
Proof.
  intros H Hd Hp Hplay. cell_facts H.
  rewrite (value_round_lookup _ _ _ _ _ Hp) in Hpv.
  rewrite Hd in Hdh. injection Hdh as <-. rewrite Hp in Hpv. injection Hpv as <-.
  unfold decision in Hplay.
  unfold cell, player_multipliers. cbn [pair_plus].
  unfold pair_plus_multiplier.
  destruct (Z.eqb_spec (house_way ACE_HIGH KING_HIGH QUEEN_HIGH ACE KING dealer_hand.1.1 v) 0)
    as [E|_]; [contradiction|].
  unfold ThreeCardLookup.MAX_PAIR, ThreeCardLookup.MAX_FLUSH, ThreeCardLookup.MAX_STRAIGHT, ThreeCardLookup.MAX_TRIPS, ThreeCardLookup.MAX_STRAIGHT_FLUSH.
  split; [repeat split|].
  destruct (Z.gtb_spec v 872), (Z.gtb_spec v 716), (Z.gtb_spec v 442),
    (Z.gtb_spec v 25), (Z.gtb_spec v 12), (Z.gtb_spec v 1);
    repeat split; intros; lia.
Qed.

Lemma pair_plus_bands_witness :
  exists e,
    multipliers_at (sample_evaluator 7462) [jack_high; aces_with_king_1]
      [1057; 717] 1 0 0 = Some e /\
    pair_plus e = 1.
Proof.
  eexists. split; [vm_compute; reflexivity|].
  apply (pair_plus_bands (sample_evaluator 7462) [jack_high; aces_with_king_1]
           [1057; 717] 1 0 0 _ jack_high 717);
    try (vm_compute; reflexivity); [vm_compute; discriminate|vm_compute; split; congruence].
Defined.

(** A played hand that ties the dealer is settled as a win on both bets:
    [copysign] gives the zero difference the sign [+1]. *)
Lemma played_tie_wins (evaluator : Evaluator) (hands : list Hand)
    (hand_values : list Z) (num_players r i : nat) (e : Multipliers)
    (dealer_hand : Hand) (v : Z) :
  multipliers_at evaluator hands hand_values num_players r i = Some e ->
  hands !! (r * S num_players)%nat = Some dealer_hand ->
  hand_values !! (r * S num_players)%nat = Some v ->
  hand_values !! (r * S num_players + S i)%nat = Some v ->
  decision dealer_hand v <> 0 ->
  ante e = 1 /\ play e = 1.
Proof.
  intros H Hd Hv Hp Hplay. cell_facts H.
  rewrite (value_round_lookup _ _ _ _ _ Hp) in Hpv, Hdv.
  rewrite Hd in Hdh. injection Hdh as <-. rewrite Hp in Hpv. injection Hpv as <-.
  rewrite Hv in Hdv. injection Hdv as <-.
  unfold decision in Hplay.
  unfold cell, player_multipliers. cbn [play ante].
  rewrite Z.sub_diag. change (copysign 1 (wrap32 0)) with 1.
  unfold ante_multiplier, play_result.
  revert Hplay. unfold house_way, ACE_HIGH, KING_HIGH, QUEEN_HIGH.
  destruct (Z.leb_spec v 936), (Z.leb_spec v 990), (Z.leb_spec v 1034);
    try lia; repeat (destruct (_ <? _)); cbn; intros; try lia; split; reflexivity.
Qed.

(** C1 (failing input): the dealer holds a pair of aces with a king and so
    does the player; both hands evaluate to 717, the player plays, and the
    tie is paid [+1] on Ante and on Play. *)
Theorem tie_settles_as_win (evaluator : Evaluator) :
  evaluate_hands [aces_with_king_1; aces_with_king_2] = Some [717; 717] /\
  exists e,
    GenerateMultipliers evaluator [aces_with_king_1; aces_with_king_2] [717; 717] 1
      = Some [[e]] /\
    ante e = 1 /\ play e = 1.
Proof.
  split; [vm_compute; reflexivity|].
  unfold GenerateMultipliers.
  change (reshape 2 [aces_with_king_1; aces_with_king_2])
    with (Some [[aces_with_king_1; aces_with_king_2]]).
  cbn [mbind option_bind length].
  rewrite option_guard_True by (split; discriminate). cbn [mbind option_bind].
  change (reshape 2 [717; 717]) with (Some [[717; 717]]).
  cbn [mbind option_bind].
  change (broadcast_rows 1 [[717; 717]]) with (Some [[717; 717]]).
  cbn [mbind option_bind].
  rewrite ACE_HIGH_eval, KING_HIGH_eval, QUEEN_HIGH_eval. cbn [mbind option_bind].
  eexists. split; [reflexivity|]. split; vm_compute; reflexivity.
Qed.

(** C10: the 6-card multiplier of a cell is the payout sweep applied to the
    oracle's value for the dealer's three cards followed by the player's
    three.  It does not depend on the hand values, hence not on the play
    decision: two runs over the same cards with different values (one in
    which the player folds, say) agree on it. *)
Theorem six_card_bonus_ignores_play (evaluator : Evaluator) (hands : list Hand)
    (hand_values hand_values' : list Z) (num_players r i : nat) (e e' : Multipliers) :
  multipliers_at evaluator hands hand_values num_players r i = Some e ->
  multipliers_at evaluator hands hand_values' num_players r i = Some e' ->
  six_card e = six_card e' /\
  exists dealer_hand player_hand : Hand,
    hands !! (r * S num_players)%nat = Some dealer_hand /\
    hands !! (r * S num_players + S i)%nat = Some player_hand /\
    let value := wrap32 (_six evaluator (cards dealer_hand ++ cards player_hand)) in
    (- 2 ^ 31 <= _six evaluator (cards dealer_hand ++ cards player_hand) < 2 ^ 31 ->
     value = _six evaluator (cards dealer_hand ++ cards player_hand)) /\
    six_card e =
      if value >? MAX_THREE_OF_A_KIND evaluator then -1
      else if value >? MAX_STRAIGHT evaluator then 5
      else if value >? MAX_FLUSH evaluator then 10
      else if value >? MAX_FULL_HOUSE evaluator then 15
      else if value >? MAX_FOUR_OF_A_KIND evaluator then 25
      else if value >? MAX_STRAIGHT_FLUSH evaluator then 50
      else if value >? 1 then 200 else 1000.
Proof.
  intros H H'. cell_facts H.
  apply multipliers_at_cell in H'.
  destruct H' as (dh' & ph' & dv' & pv' & _ & Hdh' & _ & Hph' & _ & ->).
  rewrite Hdh in Hdh'. injection Hdh' as <-.
  rewrite Hph in Hph'. injection Hph' as <-.
  split; [reflexivity|].
  exists dh, ph. split; [exact Hdh|]. split; [exact Hph|].
  cbv zeta. split; [apply wrap32_small|reflexivity].
Qed.

Lemma six_card_bonus_ignores_play_witness :
  exists e e',
    multipliers_at (sample_evaluator 1609) [aces_with_king_1; jack_high]
      [717; 1057] 1 0 0 = Some e /\
    multipliers_at (sample_evaluator 1609) [aces_with_king_1; jack_high]
      [717; 717] 1 0 0 = Some e' /\
    pair_plus e = -1 /\ pair_plus e' = 1 /\ six_card e = six_card e'.
Proof.
  eexists. eexists.
  split; [vm_compute; reflexivity|]. split; [vm_compute; reflexivity|].
  split; [reflexivity|]. split; [reflexivity|].
  apply (six_card_bonus_ignores_play (sample_evaluator 1609)
           [aces_with_king_1; jack_high] [717; 1057] [717; 717] 1 0 0);
    vm_compute; reflexivity.
Defined.

End WagerEngine.

(** ** Bank settlement *)

Section BankrollSettlement.

Import ThreeCardPoker.

Lemma total_cons (x : Z) (l : list Z) : total (x :: l) = x + total l.
Proof. reflexivity. Qed.

Lemma total_abs_nonneg (l : list Z) : 0 <= total (map Z.abs l).
Proof.
  induction l as [|x l IH]; [cbn; lia|].
  cbn [map]. rewrite total_cons. lia.
Qed.

Lemma abs_total_le (l : list Z) : Z.abs (total l) <= total (map Z.abs l).
Proof.
  induction l as [|x l IH]; [cbn; lia|].
  cbn [map]. rewrite !total_cons. lia.
Qed.

(** With a positive bank the first spot is settled like the others, with
    nothing paid so far. *)
Lemma adjust_row_from_zero (bank_amount : Z) (payouts : list Z) :
  0 < bank_amount -> payouts <> [] -> fits_int32 payouts ->
  adjust_row bank_amount payouts =
  Some (adjust_rest bank_amount 0
          (zip payouts (map wrap32 (cumsum (map absolute32 payouts))))).
Proof.
  intros Hb Hne Hfit. destruct payouts as [|p ps]; [contradiction|].
  unfold fits_int32, INT32_MAX in Hfit. cbn [map] in Hfit. rewrite total_cons in Hfit.
  pose proof (total_abs_nonneg ps) as Hps.
  unfold adjust_row, cumsum. cbn [map cumsum_from zip zip_with adjust_rest].
  rewrite Z.sub_0_r, Z.add_0_l.
  assert (Ha : absolute32 p = Z.abs p) by (unfold absolute32; apply wrap32_small; lia).
  rewrite Ha, (wrap32_small (Z.abs p)) by lia.
  destruct (Z.ltb_spec (Z.abs p) bank_amount); [reflexivity|].
  destruct (Z.ltb_spec 0 bank_amount); [|lia].
  rewrite (wrap32_small bank_amount) by lia. reflexivity.
Qed.

Lemma adjust_rest_length (bank_amount prev : Z) (items : list (Z * Z)) :
  length (adjust_rest bank_amount prev items) = length items.
Proof.
  revert prev. induction items as [|[p c] items IH]; intros prev; cbn; [|rewrite IH];
    reflexivity.
Qed.

Lemma cumsum_from_length (acc : Z) (l : list Z) : length (cumsum_from acc l) = length l.
Proof. revert acc. induction l as [|x l IH]; intros acc; cbn; [|rewrite IH]; reflexivity. Qed.

(** The settled magnitudes never exceed what is left of the bank. *)
Lemma adjust_rest_bound (bank_amount acc : Z) (payouts : list Z) :
  0 < bank_amount -> 0 <= acc ->
  acc + total (map Z.abs payouts) <= INT32_MAX ->
  total (map Z.abs
           (adjust_rest bank_amount acc
              (zip payouts (map wrap32 (cumsum_from acc (map absolute32 payouts))))))
  <= Z.max 0 (bank_amount - acc).
Proof.
  intros Hb. revert acc.
  induction payouts as [|p ps IH]; intros acc Hacc Hfit; [cbn; lia|].
  cbn [map] in Hfit. rewrite total_cons in Hfit.
  pose proof (total_abs_nonneg ps) as Hps.
  unfold INT32_MAX in *.
  assert (Ha : absolute32 p = Z.abs p)
    by (unfold absolute32; apply wrap32_small; lia).
  cbn [map cumsum_from zip zip_with adjust_rest].
  rewrite total_cons, Ha, (wrap32_small (acc + Z.abs p)) by lia.
  specialize (IH (acc + Z.abs p) ltac:(lia) ltac:(lia)).
  destruct (Z.ltb_spec (acc + Z.abs p) bank_amount);
    [lia|destruct (Z.ltb_spec acc bank_amount)].
  - rewrite (wrap32_small (bank_amount - acc)) by lia.
    rewrite to_int32_small by (unfold copysign; destruct (p <? 0); lia).
    unfold copysign. destruct (p <? 0); lia.
  - cbn [Z.abs]. lia.
Qed.

Lemma adjust_row_bound (bank_amount : Z) (payouts adj : list Z) :
  0 < bank_amount -> fits_int32 payouts ->
  adjust_row bank_amount payouts = Some adj ->
  length adj = length payouts /\ total (map Z.abs adj) <= bank_amount.
Proof.
  intros Hb Hfit Hadj.
  destruct payouts as [|p ps] eqn:E; [discriminate|]. rewrite <- E in *.
  rewrite adjust_row_from_zero in Hadj by (subst; done).
  injection Hadj as <-. split.
  - rewrite adjust_rest_length, length_zip, length_map.
    unfold cumsum. rewrite cumsum_from_length, length_map. lia.
  - pose proof (adjust_rest_bound bank_amount 0 payouts Hb ltac:(lia) Hfit) as H.
    unfold cumsum. lia.
Qed.

Lemma spots_seats (n : nat) (row : list Z) :
  length row = (4 * n)%nat -> concat (map spots (seats row)) = row.
Proof.
  revert row. induction n as [|n IH]; intros row Hlen.
  - destruct row; [reflexivity|discriminate].
  - destruct row as [|a [|b [|c [|d row]]]]; try (cbn in Hlen; lia).
    cbn [seats map concat spots play ante pair_plus six_card app].
    rewrite IH by (cbn in Hlen; lia). reflexivity.
Qed.

Lemma spots_length (round : list Multipliers) :
  length (concat (map spots round)) = (4 * length round)%nat.
Proof. induction round as [|m round IH]; cbn in *; lia. Qed.

(** C3: the worked settlement example.  With a bank of 5000 the spots
    [+3000, -4000, +1000] have running absolute totals [3000, 7000, 8000] and
    settle as [+3000, -2000, 0]; with a bank of 10000 they settle unchanged.
    The same holds through [AdjustForAction] for one seat whose fourth spot
    is zero. *)
Theorem settlement_example :
  map wrap32 (cumsum (map absolute32 [3000; -4000; 1000])) = [3000; 7000; 8000] /\
  adjust_row 5000 [3000; -4000; 1000] = Some [3000; -2000; 0] /\
  adjust_row 10000 [3000; -4000; 1000] = Some [3000; -4000; 1000] /\
  AdjustForAction
    [[{| play := 3000; ante := -4000; pair_plus := 1000; six_card := 0 |}]] 5000 =
    Some [[{| play := 3000; ante := -2000; pair_plus := 0; six_card := 0 |}]] /\
  AdjustForAction
    [[{| play := 3000; ante := -4000; pair_plus := 1000; six_card := 0 |}]] 10000 =
    Some [[{| play := 3000; ante := -4000; pair_plus := 1000; six_card := 0 |}]].
Proof. repeat split; vm_compute; reflexivity. Qed.


Lemma AdjustForAction_rounds (payouts : list (list Multipliers)) (bank_amount : Z) :
  payouts <> [] -> AdjustForAction payouts bank_amount = adjust_rounds payouts bank_amount.
Proof. destruct payouts; [congruence|reflexivity]. Qed.




End BankrollSettlement.

(** * Further properties *)

(** ** The rank table: bands, categories and order *)

Section RankTableOrder.

Import Card ThreeCardLookup.

(** X1: the ranks stored in the table are exactly the trips band, the
    straight band and the pair and high-card bands, every rank of those
    bands being used. *)
Theorem lookup_values_fill_bands (v : Z) :
  (exists k, lookup !! k = Some v) <->
  (MIN_TRIPS <= v <= MAX_TRIPS \/ MIN_STRAIGHT <= v <= MAX_STRAIGHT \/
   MIN_PAIR <= v <= MAX_HIGH_CARD).
Proof.
  unfold MIN_TRIPS, MAX_TRIPS, MIN_STRAIGHT, MAX_STRAIGHT, MIN_PAIR, MAX_HIGH_CARD.
  split.
  - intros [k Hk].
    assert (H : map_Forall (fun _ v => 13 <= v <= 25 \/ 431 <= v <= 442 \/ 717 <= v <= 1146)
                           lookup).
    { apply (bool_decide_eq_true_1 (map_Forall
               (fun _ v : Z => 13 <= v <= 25 \/ 431 <= v <= 442 \/ 717 <= v <= 1146) lookup)).
      vm_compute. reflexivity. }
    exact (H k v Hk).
  - intros Hv.
    assert (H : forallb (fun v => existsb (fun kv : Z * Z => kv.2 =? v) (map_to_list lookup))
                        (seqZ 13 13 ++ seqZ 431 12 ++ seqZ 717 430) = true)
      by (vm_compute; reflexivity).
    rewrite forallb_forall in H. specialize (H v).
    assert (Hin : In v (seqZ 13 13 ++ seqZ 431 12 ++ seqZ 717 430)).
    { apply list_elem_of_In. rewrite !elem_of_app, !elem_of_seqZ. lia. }
    apply H, existsb_exists in Hin. destruct Hin as ([k v'] & Hkv & E).
    apply Z.eqb_eq in E. cbn [snd] in E. subst v'.
    exists k. apply elem_of_map_to_list, list_elem_of_In, Hkv.
Qed.

(** X2: the table files every rank triple under its poker category: trips
    in the trips band, a pair in the pair band, three ranks in sequence (ace
    high or low) in the straight band and anything else in the high-card
    band. *)
Theorem lookup_band_is_category (r1 r2 r3 : Rank) :
  exists v, lookup !! rank_key r1 r2 r3 = Some v /\ in_band (rank_category r1 r2 r3) v.
Proof.
  assert (H : forall_rank (fun r1 => forall_rank (fun r2 => forall_rank (fun r3 =>
    match lookup !! rank_key r1 r2 r3 with
    | Some v => bool_decide (in_band (rank_category r1 r2 r3) v)
    | None => false
    end))) = true) by (vm_compute; reflexivity).
  pose proof (forall_rank_spec _ (forall_rank_spec _ (forall_rank_spec _ H r1) r2) r3) as H'.
  cbv beta in H'. destruct (lookup !! rank_key r1 r2 r3) as [v|]; [|discriminate].
  exists v. split; [reflexivity|]. apply bool_decide_eq_true in H'. exact H'.
Qed.

(** X3: trips and straights in closed form.  Three of rank [r] get
    [MAX_TRIPS - rank_int r] (aces 13, deuces 25); a straight gets
    [MAX_STRAIGHT] when it is ace-deuce-trey and otherwise
    [MIN_STRAIGHT + 12 - h] for its top rank number [h] (ace-king-queen 431). *)
Theorem trips_and_straights_by_top_rank :
  (forall r : Rank, lookup !! rank_key r r r = Some (MAX_TRIPS - rank_int r)) /\
  (forall r1 r2 r3 : Rank, consecutive r1 r2 r3 = true ->
     lookup !! rank_key r1 r2 r3 =
     Some (if wheel r1 r2 r3 then MAX_STRAIGHT
           else MIN_STRAIGHT + 12 - high_rank r1 r2 r3)).
Proof.
  split.
  - intros r. destruct r; vm_compute; reflexivity.
  - intros r1 r2 r3 Hc.
    assert (H : forall_rank (fun r1 => forall_rank (fun r2 => forall_rank (fun r3 =>
      if consecutive r1 r2 r3
      then bool_decide (lookup !! rank_key r1 r2 r3 =
                        Some (if wheel r1 r2 r3 then MAX_STRAIGHT
                              else MIN_STRAIGHT + 12 - high_rank r1 r2 r3))
      else true))) = true) by (vm_compute; reflexivity).
    pose proof (forall_rank_spec _ (forall_rank_spec _ (forall_rank_spec _ H r1) r2) r3) as H'.
    cbv beta in H'. rewrite Hc in H'. apply bool_decide_eq_true in H'. exact H'.
Qed.

Lemma trips_and_straights_by_top_rank_witness :
  lookup !! rank_key RK RQ RA = Some 431.
Proof.
  exact (proj2 trips_and_straights_by_top_rank RK RQ RA ltac:(reflexivity)).
Defined.

(** X4: pairs in closed form: a pair of rank [a] with kicker [k] gets
    [MIN_PAIR + 12 * (12 - a)] plus the kicker's place among the twelve other
    ranks counted from the ace down; so a higher pair always beats a lower
    one and, for the same pair, a higher kicker beats a lower one. *)
Theorem pair_value_by_pair_then_kicker (a k : Rank) :
  a <> k ->
  lookup !! rank_key a a k =
  Some (MIN_PAIR + 12 * (12 - rank_int a) +
        (if rank_int a <? rank_int k then 12 - rank_int k else 11 - rank_int k)).
Proof.
  intros Hne.
  assert (H : forall_rank (fun a => forall_rank (fun k =>
    bool_decide (a = k) ||
    bool_decide (lookup !! rank_key a a k =
      Some (MIN_PAIR + 12 * (12 - rank_int a) +
            (if rank_int a <? rank_int k then 12 - rank_int k else 11 - rank_int k))))) = true)
    by (vm_compute; reflexivity).
  pose proof (forall_rank_spec _ (forall_rank_spec _ H a) k) as H'. cbv beta in H'.
  apply orb_prop in H'. destruct H' as [E|E]; apply bool_decide_eq_true in E;
    [contradiction|exact E].
Qed.

Lemma pair_value_by_pair_then_kicker_witness :
  lookup !! rank_key RA RA RK = Some 717.
Proof.
  exact (pair_value_by_pair_then_kicker RA RK ltac:(discriminate)).
Defined.

(** X5: high cards are ordered by top rank, then second, then third: of two
    triples of descending ranks that are not straights, the lexicographically
    higher one has the strictly smaller (stronger) rank. *)
Theorem high_cards_lexicographic (r1 r2 r3 r1' r2' r3' : Rank) :
  descending r1 r2 r3 = true -> descending r1' r2' r3' = true ->
  consecutive r1 r2 r3 = false -> consecutive r1' r2' r3' = false ->
  lex_higher r1 r2 r3 r1' r2' r3' = true ->
  exists v v', lookup !! rank_key r1 r2 r3 = Some v /\
               lookup !! rank_key r1' r2' r3' = Some v' /\ v < v'.
Proof.
  intros Hd Hd' Hc Hc' Hlex.
  assert (H : forall_rank (fun r1 => forall_rank (fun r2 => forall_rank (fun r3 =>
    if descending r1 r2 r3 && negb (consecutive r1 r2 r3)
    then forall_rank (fun r1' => forall_rank (fun r2' => forall_rank (fun r3' =>
           if descending r1' r2' r3' && negb (consecutive r1' r2' r3') &&
              lex_higher r1 r2 r3 r1' r2' r3'
           then match lookup !! rank_key r1 r2 r3, lookup !! rank_key r1' r2' r3' with
                | Some v, Some v' => v <? v'
                | _, _ => false
                end
           else true)))
    else true))) = true) by (vm_compute; reflexivity).
  pose proof (forall_rank_spec _ (forall_rank_spec _ (forall_rank_spec _ H r1) r2) r3) as H1.
  cbv beta in H1. rewrite Hd, Hc in H1. cbn [negb andb] in H1.
  pose proof (forall_rank_spec _ (forall_rank_spec _ (forall_rank_spec _ H1 r1') r2') r3') as H2.
  cbv beta in H2. rewrite Hd', Hc', Hlex in H2. cbn [negb andb] in H2.
  destruct (lookup !! rank_key r1 r2 r3) as [v|]; [|discriminate].
  destruct (lookup !! rank_key r1' r2' r3') as [v'|]; [|discriminate].
  exists v, v'. repeat split. apply Z.ltb_lt, H2.
Qed.

Lemma high_cards_lexicographic_witness :
  exists v v', lookup !! rank_key RA R4 R2 = Some v /\
               lookup !! rank_key RK RQ RT = Some v' /\ v < v'.
Proof.
  apply (high_cards_lexicographic RA R4 R2 RK RQ RT); reflexivity.
Defined.

(** X6: [lookup] is a class attribute shared by all instances; running the
    constructor again over the filled dictionary (a second [ThreeCardLookup()])
    leaves every entry as it was, even though the high-card pass then skips
    every key. *)
Theorem init_again_keeps_table : init (init ∅) = init ∅.
Proof. vm_compute. reflexivity. Qed.

End RankTableOrder.

(** ** Hand evaluation: order of the cards, number of cards, categories *)

Section HandEvaluatorMore.

Import Card ThreeCardLookup ThreeCardPoker.

Lemma evaluate_hand_loop (hand : list Z) (prime suit : Z) :
  foldl (fun st card => (st.1 * Z.land card 0xFF, Z.land st.2 card)) (prime, suit) hand =
  (prime * low_byte_product hand, Z.land suit (card_conjunction hand)).
Proof.
  revert prime suit. induction hand as [|c hand IH]; intros prime suit.
  - cbn. rewrite Z.mul_1_r, Z.land_m1_r. reflexivity.
  - cbn [foldl fst snd]. rewrite IH.
    change (low_byte_product (c :: hand)) with (Z.land c 0xFF * low_byte_product hand).
    change (card_conjunction (c :: hand)) with (Z.land c (card_conjunction hand)).
    f_equal; [ring | rewrite Z.land_assoc; reflexivity].
Qed.

Lemma evaluate_hand_unfold (hand : list Z) :
  evaluate_hand hand =
  v ← lookup !! low_byte_product hand;
  Some (v - (if decide (Z.land 0xF000 (card_conjunction hand) = 0) then 0 else 1)
           * FLUSH_OFFSET).
Proof.
  unfold evaluate_hand. rewrite evaluate_hand_loop. cbn [fst snd].
  rewrite Z.mul_1_l. reflexivity.
Qed.

Lemma low_byte_product_perm (hand hand' : list Z) :
  hand ≡ₚ hand' -> low_byte_product hand = low_byte_product hand'.
Proof.
  induction 1 as [|c l l' _ IH|c d l|l l' l'' _ IH1 _ IH2];
    [reflexivity| | |congruence].
  - change (Z.land c 0xFF * low_byte_product l = Z.land c 0xFF * low_byte_product l').
    congruence.
  - change (Z.land d 0xFF * (Z.land c 0xFF * low_byte_product l) =
            Z.land c 0xFF * (Z.land d 0xFF * low_byte_product l)).
    ring.
Qed.

Lemma card_conjunction_perm (hand hand' : list Z) :
  hand ≡ₚ hand' -> card_conjunction hand = card_conjunction hand'.
Proof.
  induction 1 as [|c l l' _ IH|c d l|l l' l'' _ IH1 _ IH2];
    [reflexivity| | |congruence].
  - change (Z.land c (card_conjunction l) = Z.land c (card_conjunction l')). congruence.
  - change (Z.land d (Z.land c (card_conjunction l)) =
            Z.land c (Z.land d (card_conjunction l))).
    rewrite !Z.land_assoc, (Z.land_comm c d). reflexivity.
Qed.

(** X7: the order of the cards in a hand does not matter: a rearranged hand
    evaluates to the same value, or fails alike. *)
Theorem evaluate_hand_any_order (hand hand' : list Z) :
  hand ≡ₚ hand' -> evaluate_hand hand = evaluate_hand hand'.
Proof.
  intros Hp. rewrite !evaluate_hand_unfold.
  rewrite (low_byte_product_perm _ _ Hp), (card_conjunction_perm _ _ Hp). reflexivity.
Qed.

Lemma evaluate_hand_any_order_witness :
  evaluate_hand [new RA Clubs; new R2 Diamonds; new R4 Diamonds] =
  evaluate_hand [new R4 Diamonds; new RA Clubs; new R2 Diamonds].
Proof.
  apply (evaluate_hand_any_order [new RA Clubs; new R2 Diamonds; new R4 Diamonds]
           [new R4 Diamonds; new RA Clubs; new R2 Diamonds]).
  apply (bool_decide_eq_true_1 _). vm_compute. reflexivity.
Defined.

(** Unique factorisation over the thirteen rank primes. *)
Lemma rank_primes_coprime (p q : Rank) :
  p <> q -> Z.gcd (rank_prime p) (rank_prime q) = 1.
Proof. destruct p, q; intros H; try reflexivity; contradiction. Qed.

Lemma rank_prime_ge_2 (p : Rank) : 2 <= rank_prime p.
Proof. destruct p; cbn; lia. Qed.

Lemma rank_product_pos (l : list Rank) : 1 <= rank_product l.
Proof.
  induction l as [|q l IH]; [cbn; lia|].
  change (1 <= rank_prime q * rank_product l).
  pose proof (rank_prime_ge_2 q). nia.
Qed.

Lemma rank_product_perm (l l' : list Rank) :
  l ≡ₚ l' -> rank_product l = rank_product l'.
Proof.
  induction 1 as [|c l l' _ IH|c d l|l l' l'' _ IH1 _ IH2];
    [reflexivity| | |congruence].
  - change (rank_prime c * rank_product l = rank_prime c * rank_product l'). congruence.
  - change (rank_prime d * (rank_prime c * rank_product l) =
            rank_prime c * (rank_prime d * rank_product l)).
    ring.
Qed.

Lemma rank_prime_divides_product (p : Rank) (l : list Rank) :
  (rank_prime p | rank_product l) -> p ∈ l.
Proof.
  induction l as [|q l IH]; intros Hd.
  - change (rank_prime p | 1) in Hd.
    apply Z.divide_1_r in Hd. pose proof (rank_prime_ge_2 p). lia.
  - change (rank_prime p | rank_prime q * rank_product l) in Hd.
    destruct (decide (p = q)) as [->|Hne]; [left|].
    right. apply IH. eapply Z.gauss; [exact Hd|]. apply rank_primes_coprime, Hne.
Qed.

Lemma rank_product_injective (l l' : list Rank) :
  rank_product l = rank_product l' -> l ≡ₚ l'.
Proof.
  revert l'. induction l as [|p l IH]; intros l' E.
  - destruct l' as [|q l']; [reflexivity|].
    change (1 = rank_prime q * rank_product l') in E.
    pose proof (rank_prime_ge_2 q). pose proof (rank_product_pos l'). nia.
  - change (rank_prime p * rank_product l = rank_product l') in E.
    assert (Hin : p ∈ l').
    { apply rank_prime_divides_product. rewrite <- E. apply Z.divide_factor_l. }
    apply elem_of_Permutation in Hin. destruct Hin as [l'' Hp].
    rewrite Hp. constructor. apply IH.
    rewrite (rank_product_perm _ _ Hp) in E.
    change (rank_prime p * rank_product l = rank_prime p * rank_product l'') in E.
    pose proof (rank_prime_ge_2 p). nia.
Qed.

Lemma low_byte_product_cards (cs : list (Rank * Suit)) :
  low_byte_product (card_of <$> cs) = rank_product cs.*1.
Proof.
  induction cs as [|[r s] cs IH]; [reflexivity|].
  change (Z.land (new r s) 0xFF * low_byte_product (card_of <$> cs) =
          rank_prime r * rank_product cs.*1).
  rewrite card_low_byte, IH. reflexivity.
Qed.

(** X8: on well-formed cards [evaluate_hand] returns a value exactly for
    hands of three cards; the empty hand and any hand of one, two, four or
    more cards has no key in the table and raises [KeyError]. *)
Theorem evaluate_hand_needs_three_cards (cs : list (Rank * Suit)) :
  is_Some (evaluate_hand (card_of <$> cs)) <-> length cs = 3%nat.
Proof.
  rewrite evaluate_hand_unfold, low_byte_product_cards. split.
  - intros [v Hv].
    destruct (lookup !! rank_product cs.*1) as [w|] eqn:Hw; [|discriminate].
    destruct (lookup_keys_are_rank_keys _ _ Hw) as (r1 & r2 & r3 & E).
    assert (Hp : cs.*1 ≡ₚ [r1; r2; r3]).
    { apply rank_product_injective. rewrite E. unfold rank_key.
      change (rank_product [r1; r2; r3])
        with (rank_prime r1 * (rank_prime r2 * (rank_prime r3 * 1))).
      ring. }
    apply Permutation_length in Hp. rewrite length_fmap in Hp. exact Hp.
  - intros Hlen. destruct cs as [|[r1 s1] [|[r2 s2] [|[r3 s3] [|? ?]]]]; try discriminate.
    change (rank_product [(r1, s1); (r2, s2); (r3, s3)].*1)
      with (rank_prime r1 * (rank_prime r2 * (rank_prime r3 * 1))).
    destruct (lookup_no_gaps r1 r2 r3) as [v Hv]. unfold rank_key in Hv.
    replace (rank_prime r1 * (rank_prime r2 * (rank_prime r3 * 1)))
      with (rank_prime r1 * rank_prime r2 * rank_prime r3) by ring.
    rewrite Hv. eexists. reflexivity.
Qed.

Lemma rank_triple_band (r1 r2 r3 : Rank) :
  exists w, lookup !! rank_key r1 r2 r3 = Some w /\ in_band (rank_category r1 r2 r3) w.
Proof.
  assert (H : forall_rank (fun r1 => forall_rank (fun r2 => forall_rank (fun r3 =>
    match lookup !! rank_key r1 r2 r3 with
    | Some v => bool_decide (in_band (rank_category r1 r2 r3) v)
    | None => false
    end))) = true) by (vm_compute; reflexivity).
  pose proof (forall_rank_spec _ (forall_rank_spec _ (forall_rank_spec _ H r1) r2) r3) as H'.
  cbv beta in H'. destruct (lookup !! rank_key r1 r2 r3) as [v|]; [|discriminate].
  exists v. split; [reflexivity|]. apply bool_decide_eq_true in H'. exact H'.
Qed.

(** Three different cards of one suit have three different ranks. *)
Lemma suited_distinct_category (r1 r2 r3 : Rank) (s : Suit) :
  NoDup [(r1, s); (r2, s); (r3, s)] ->
  rank_category r1 r2 r3 = Straight \/ rank_category r1 r2 r3 = HighCard.
Proof.
  intros Hnd.
  apply NoDup_cons in Hnd. destruct Hnd as [Hn1 Hnd].
  apply NoDup_cons in Hnd. destruct Hnd as [Hn2 _].
  assert (r1 <> r2) by (intros ->; apply Hn1; left).
  assert (r1 <> r3) by (intros ->; apply Hn1; right; left).
  assert (r2 <> r3) by (intros ->; apply Hn2; left).
  unfold rank_category.
  rewrite !bool_decide_eq_false_2 by assumption. cbn [andb orb].
  destruct (consecutive r1 r2 r3); [left|right]; reflexivity.
Qed.

Lemma dealt_hand_band (r1 r2 r3 : Rank) (s1 s2 s3 : Suit) :
  NoDup [(r1, s1); (r2, s2); (r3, s3)] ->
  exists v, evaluate_hand [new r1 s1; new r2 s2; new r3 s3] = Some v /\
            in_band (hand_category r1 r2 r3 s1 s2 s3) v.
Proof.
  intros Hnd. rewrite evaluate_hand_cards.
  destruct (rank_triple_band r1 r2 r3) as (w & -> & Hw).
  cbn [mbind option_bind]. eexists. split; [reflexivity|].
  unfold hand_category. destruct (monochrome s1 s2 s3) eqn:Hm.
  - apply andb_prop in Hm. destruct Hm as [E1 E2].
    apply bool_decide_eq_true in E1, E2. subst s2 s3.
    destruct (suited_distinct_category _ _ _ _ Hnd) as [E|E]; rewrite E in *;
      unfold in_band, band in *; cbn [fst snd] in *;
      unfold FLUSH_OFFSET, MIN_STRAIGHT, ThreeCardLookup.MAX_STRAIGHT, MIN_HIGH_CARD,
        MAX_HIGH_CARD, MIN_STRAIGHT_FLUSH, ThreeCardLookup.MAX_STRAIGHT_FLUSH, MIN_FLUSH,
        ThreeCardLookup.MAX_FLUSH in *; lia.
  - rewrite Z.sub_0_r. destruct (rank_category r1 r2 r3); exact Hw.
Qed.

(** X9: three different cards evaluate into the band of their poker
    category, and the bands follow the three-card order straight flush, trips,
    straight, flush, pair, high card: of two dealt hands, the one in the
    stronger category has the strictly smaller value. *)
Theorem dealt_hands_rank_by_category
    (r1 r2 r3 : Rank) (s1 s2 s3 : Suit) (r1' r2' r3' : Rank) (s1' s2' s3' : Suit) :
  NoDup [(r1, s1); (r2, s2); (r3, s3)] ->
  NoDup [(r1', s1'); (r2', s2'); (r3', s3')] ->
  exists v v',
    evaluate_hand [new r1 s1; new r2 s2; new r3 s3] = Some v /\
    evaluate_hand [new r1' s1'; new r2' s2'; new r3' s3'] = Some v' /\
    in_band (hand_category r1 r2 r3 s1 s2 s3) v /\
    in_band (hand_category r1' r2' r3' s1' s2' s3') v' /\
    (strength (hand_category r1 r2 r3 s1 s2 s3) <
     strength (hand_category r1' r2' r3' s1' s2' s3') -> v < v').
Proof.
  intros Hnd Hnd'.
  destruct (dealt_hand_band _ _ _ _ _ _ Hnd) as (v & Hv & Hb).
  destruct (dealt_hand_band _ _ _ _ _ _ Hnd') as (v' & Hv' & Hb').
  exists v, v'. repeat split; try assumption; try apply Hb; try apply Hb'.
  revert Hb Hb'. unfold in_band.
  destruct (hand_category r1 r2 r3 s1 s2 s3), (hand_category r1' r2' r3' s1' s2' s3');
    unfold band, strength; cbn [fst snd];
    unfold MIN_STRAIGHT, ThreeCardLookup.MAX_STRAIGHT, MIN_HIGH_CARD, MAX_HIGH_CARD,
      MIN_STRAIGHT_FLUSH, ThreeCardLookup.MAX_STRAIGHT_FLUSH, MIN_FLUSH,
      ThreeCardLookup.MAX_FLUSH, MIN_TRIPS, MAX_TRIPS, MIN_PAIR, MAX_PAIR; lia.
Qed.

Lemma dealt_hands_rank_by_category_witness :
  exists v v',
    evaluate_hand [new R4 Hearts; new R3 Hearts; new R2 Hearts] = Some v /\
    evaluate_hand [new RA Clubs; new RA Diamonds; new RA Hearts] = Some v' /\
    in_band StraightFlush v /\ in_band Trips v' /\
    (strength StraightFlush < strength Trips -> v < v').
Proof.
  apply (dealt_hands_rank_by_category R4 R3 R2 Hearts Hearts Hearts
           RA RA RA Clubs Diamonds Hearts);
    apply (bool_decide_eq_true_1 _); vm_compute; reflexivity.
Defined.

(** X10: the batch evaluator succeeds exactly when the batch holds at least
    one hand and every hand of it has a key in the table: an empty batch
    raises, one bad hand makes the whole call raise, and a successful call
    returns one value per hand. *)
Theorem evaluate_hands_all_or_nothing (hands : list Hand) :
  (is_Some (evaluate_hands hands) <->
   hands <> [] /\ Forall (fun h => is_Some (evaluate_hand (cards h))) hands) /\
  (forall values, evaluate_hands hands = Some values -> length values = length hands).
Proof.
  destruct hands as [|h hands].
  - split; [|discriminate].
    split; [intros [values H]; discriminate | intros [H _]; congruence].
  - rewrite evaluate_hands_mapM by discriminate. split.
    + rewrite mapM_is_Some. split; [intros H; split; [discriminate|exact H]|].
      intros [_ H]. exact H.
    + intros values Hv. apply mapM_Some in Hv. symmetry. eapply Forall2_length, Hv.
Qed.

Lemma land_distributes (m a b : Z) :
  Z.land m (Z.land a b) = Z.land (Z.land m a) (Z.land m b).
Proof.
  apply Z.bits_inj'. intros n _. rewrite !Z.land_spec.
  destruct (Z.testbit m n), (Z.testbit a n), (Z.testbit b n); reflexivity.
Qed.

Lemma masked_low_byte (c : Z) : Z.land (Z.land c 0xF0FF) 0xFF = Z.land c 0xFF.
Proof. rewrite <- Z.land_assoc. reflexivity. Qed.

Lemma masked_suit_nibble (c : Z) : Z.land 0xF000 (Z.land c 0xF0FF) = Z.land 0xF000 c.
Proof.
  rewrite (Z.land_comm c), Z.land_assoc. reflexivity.
Qed.

(** X11: only the low byte and the suit nibble of a card are read: clearing
    every other bit of every card (the rank number and the rank bit of the
    deuces encoding) changes neither the value nor a failure. *)
Theorem evaluate_hand_reads_two_fields (hand : list Z) :
  evaluate_hand ((fun card => Z.land card 0xF0FF) <$> hand) = evaluate_hand hand.
Proof.
  rewrite !evaluate_hand_unfold.
  assert (Hp : low_byte_product ((fun card => Z.land card 0xF0FF) <$> hand) =
               low_byte_product hand).
  { induction hand as [|c hand IH]; [reflexivity|].
    change (Z.land (Z.land c 0xF0FF) 0xFF *
              low_byte_product ((fun card => Z.land card 0xF0FF) <$> hand) =
            Z.land c 0xFF * low_byte_product hand).
    rewrite masked_low_byte, IH. reflexivity. }
  assert (Hs : Z.land 0xF000 (card_conjunction ((fun card => Z.land card 0xF0FF) <$> hand)) =
               Z.land 0xF000 (card_conjunction hand)).
  { clear Hp. induction hand as [|c hand IH]; [reflexivity|].
    change (Z.land 0xF000 (Z.land (Z.land c 0xF0FF)
              (card_conjunction ((fun card => Z.land card 0xF0FF) <$> hand))) =
            Z.land 0xF000 (Z.land c (card_conjunction hand))).
    rewrite land_distributes, masked_suit_nibble, IH, <- land_distributes. reflexivity. }
  rewrite Hp, Hs. reflexivity.
Qed.

End HandEvaluatorMore.

(** ** Wager multipliers: shape, ranges and outcomes *)

Section WagerEngineMore.

Import Card ThreeCardLookup ThreeCardPoker.

Lemma length_by_lookup {A : Type} (l : list A) (n : nat) :
  (forall r, is_Some (l !! r) <-> (r < n)%nat) -> length l = n.
Proof.
  intros H. destruct (Nat.lt_trichotomy (length l) n) as [Hlt|[E|Hgt]]; [|exact E|].
  - apply H, lookup_lt_is_Some in Hlt. lia.
  - assert (Hs : is_Some (l !! n)) by (apply lookup_lt_is_Some; exact Hgt).
    apply H in Hs. lia.
Qed.

Lemma broadcast_rows_length {A : Type} (n : nat) (rows vrounds : list (list A)) :
  broadcast_rows n rows = Some vrounds ->
  length vrounds = n /\ (length rows = n \/ length rows = 1%nat).
Proof.
  unfold broadcast_rows. destruct (decide (length rows = n)) as [E|E].
  - intros [= <-]. split; [exact E|left; exact E].
  - destruct rows as [|row [|]]; try discriminate. intros [= <-].
    split; [apply length_replicate|right; reflexivity].
Qed.

(** The shape of a result. *)
Lemma GenerateMultipliers_rows (evaluator : Evaluator) (hands : list Hand)
    (hand_values : list Z) (num_players : nat) (multipliers : list (list Multipliers)) :
  GenerateMultipliers evaluator hands hand_values num_players = Some multipliers ->
  length hands = (length multipliers * S num_players)%nat /\
  multipliers <> [] /\ (num_players <> 0)%nat /\
  (length hand_values = length hands \/ length hand_values = S num_players) /\
  Forall (fun row => length row = num_players) multipliers.
Proof.
  intros Hm.
  destruct (GenerateMultipliers_Some _ _ _ _ _ Hm)
    as (hrounds & svals & vrounds & Hhr & Hrounds & Hplayers & Hsv & Hbr & Hm').
  pose proof (reshape_exact _ _ _ Hhr) as Lhr.
  pose proof (reshape_exact _ _ _ Hsv) as Lsv.
  destruct (broadcast_rows_length _ _ _ Hbr) as [Lvr Lrows].
  assert (HR : length multipliers = length hrounds).
  { apply length_by_lookup. intros r. rewrite Hm', lookup_zip_with.
    rewrite stride_lookup by lia.
    replace (r * _)%nat with (r * S num_players * 3)%nat by lia.
    rewrite first_card_lookup, lookup_zip_with.
    split.
    - intros [x Hx].
      destruct (hrounds !! r) eqn:E; [|destruct (hands !! _); discriminate].
      apply lookup_lt_Some in E. lia.
    - intros Hr.
      destruct (lookup_lt_is_Some_2 hands (r * S num_players)) as [h ->]; [nia|].
      destruct (lookup_lt_is_Some_2 hrounds r) as [rh ->]; [lia|].
      destruct (lookup_lt_is_Some_2 vrounds r) as [vs ->]; [lia|].
      eexists. reflexivity. }
  split; [lia|]. split; [intros ->; cbn [length] in HR; lia|].
  split; [exact Hplayers|]. split; [nia|].
  apply Forall_lookup. intros r row Hr.
  rewrite Hm' in Hr. apply lookup_zip_with_Some in Hr.
  destruct Hr as (face & [rh vs] & -> & _ & Hz).
  apply lookup_zip_with_Some in Hz. destruct Hz as (rh' & vs' & [= <- <-] & _ & Hvs).
  destruct (broadcast_rows_lookup _ _ _ _ _ _ _ Hsv Hbr Hvs) as (Hl & _).
  destruct vs as [|dv pvs]; [discriminate|].
  cbn [round_multipliers]. rewrite length_imap. cbn [length] in Hl. lia.
Qed.

(** A single round of values is used for every round of hands: here for two
    rounds of one player each. *)
Lemma one_round_of_values_for_all (evaluator : Evaluator) :
  exists e,
    GenerateMultipliers evaluator
      [aces_with_king_1; jack_high; aces_with_king_1; jack_high] [717; 1057] 1
    = Some [[e]; [e]].
Proof.
  unfold GenerateMultipliers.
  change (reshape 2 [aces_with_king_1; jack_high; aces_with_king_1; jack_high])
    with (Some [[aces_with_king_1; jack_high]; [aces_with_king_1; jack_high]]).
  cbn [mbind option_bind length].
  rewrite option_guard_True by (split; discriminate). cbn [mbind option_bind].
  change (reshape 2 [717; 1057]) with (Some [[717; 1057]]).
  cbn [mbind option_bind].
  change (broadcast_rows 2 [[717; 1057]]) with (Some [[717; 1057]; [717; 1057]]).
  cbn [mbind option_bind].
  rewrite ACE_HIGH_eval, KING_HIGH_eval, QUEEN_HIGH_eval. cbn [mbind option_bind].
  eexists. reflexivity.
Qed.

(** X12: a successful call has processed whole rounds: there is at least one
    round and at least one player, the number of hands is the number of
    result rows times [num_players + 1], the values are one per hand or a
    single round of values (which is then used for every round), and every
    row holds one cell per player. *)
Theorem GenerateMultipliers_shape (evaluator : Evaluator) (hands : list Hand)
    (hand_values : list Z) (num_players : nat) (multipliers : list (list Multipliers)) :
  GenerateMultipliers evaluator hands hand_values num_players = Some multipliers ->
  length hands = (length multipliers * S num_players)%nat /\
  multipliers <> [] /\ (num_players <> 0)%nat /\
  (length hand_values = length hands \/ length hand_values = S num_players) /\
  Forall (fun row => length row = num_players) multipliers.
Proof. apply GenerateMultipliers_rows. Qed.

Lemma GenerateMultipliers_shape_witness :
  exists multipliers,
    GenerateMultipliers (sample_evaluator 7462) [aces_with_king_1; jack_high]
      [717; 1057] 1 = Some multipliers /\
    length [aces_with_king_1; jack_high] = (length multipliers * 2)%nat /\
    multipliers <> [] /\ (1 <> 0)%nat /\
    (length [717; 1057] = length [aces_with_king_1; jack_high] \/
     length [717; 1057] = 2%nat) /\
    Forall (fun row => length row = 1%nat) multipliers.
Proof.
  eexists. split; [vm_compute; reflexivity|].
  apply (GenerateMultipliers_shape (sample_evaluator 7462) [aces_with_king_1; jack_high]
           [717; 1057] 1).
  vm_compute. reflexivity.
Defined.

Ltac cell_parts H :=
  apply multipliers_at_cell in H;
  destruct H as (dh & ph & dv & pv & Hlt & Hdh & Hdv & Hph & Hpv & ->).

Lemma house_way_0_or_1 (c P : Z) :
  house_way ACE_HIGH KING_HIGH QUEEN_HIGH ACE KING c P = 0 \/
  house_way ACE_HIGH KING_HIGH QUEEN_HIGH ACE KING c P = 1.
Proof.
  unfold house_way.
  repeat match goal with |- context [if ?b then _ else _] => destruct b end; auto.
Qed.

Lemma house_way_played (c P : Z) :
  house_way ACE_HIGH KING_HIGH QUEEN_HIGH ACE KING c P <> 0 -> P <= QUEEN_HIGH.
Proof.
  unfold house_way, ACE_HIGH, KING_HIGH, QUEEN_HIGH.
  destruct (Z.leb_spec P 936), (Z.leb_spec P 990), (Z.leb_spec P 1034); lia.
Qed.

Ltac in_literal_list :=
  repeat first [apply list_elem_of_here | apply list_elem_of_further].

Lemma copysign_1 (x : Z) : copysign 1 x = if x <? 0 then -1 else 1.
Proof. reflexivity. Qed.

(** X13: every cell holds a Play and an Ante multiplier among [-1, 0, 1], a
    Pair-Plus multiplier among [-1, 1, 3, 6, 30, 40, 50] and a 6-card
    multiplier among [-1, 5, 10, 15, 25, 50, 200, 1000], whatever the hands,
    the values and the oracle. *)
Theorem multipliers_take_table_values (evaluator : Evaluator) (hands : list Hand)
    (hand_values : list Z) (num_players r i : nat) (e : Multipliers) :
  multipliers_at evaluator hands hand_values num_players r i = Some e ->
  play e ∈ [-1; 0; 1] /\ ante e ∈ [-1; 0; 1] /\
  pair_plus e ∈ [-1; 1; 3; 6; 30; 40; 50] /\
  six_card e ∈ [-1; 5; 10; 15; 25; 50; 200; 1000].
Proof.
  intros H. cell_parts H. unfold cell, player_multipliers.
  cbn [play ante pair_plus six_card]. rewrite copysign_1.
  split; [|split; [|split]].
  - unfold play_result.
    destruct (house_way_0_or_1 dh.1.1 pv) as [-> | ->];
      destruct (dv <=? QUEEN_HIGH), (wrap32 (dv - pv) <? 0); cbn; in_literal_list.
  - unfold ante_multiplier.
    destruct (house_way_0_or_1 dh.1.1 pv) as [-> | ->];
      destruct (dv <=? QUEEN_HIGH), (wrap32 (dv - pv) <? 0); cbn; in_literal_list.
  - unfold pair_plus_multiplier.
    repeat match goal with |- context [if ?b then _ else _] => destruct b end;
      in_literal_list.
  - unfold six_card_multiplier.
    repeat match goal with |- context [if ?b then _ else _] => destruct b end;
      in_literal_list.
Qed.

Lemma multipliers_take_table_values_witness :
  exists e,
    multipliers_at (sample_evaluator 7462) [aces_with_king_1; jack_high]
      [717; 1057] 1 0 0 = Some e /\
    play e ∈ [-1; 0; 1] /\ ante e ∈ [-1; 0; 1] /\
    pair_plus e ∈ [-1; 1; 3; 6; 30; 40; 50] /\
    six_card e ∈ [-1; 5; 10; 15; 25; 50; 200; 1000].
Proof.
  eexists. split; [vm_compute; reflexivity|].
  apply (multipliers_take_table_values (sample_evaluator 7462)
           [aces_with_king_1; jack_high] [717; 1057] 1 0 0).
  vm_compute. reflexivity.
Defined.

(** X14: the Ante never pushes.  A hand that is played is at least
    Queen-high, so a dealer who beats it qualifies; the branch that would
    return [0] is never taken and the Ante multiplier is [-1] or [1]. *)
Theorem ante_never_pushes (evaluator : Evaluator) (hands : list Hand)
    (hand_values : list Z) (num_players r i : nat) (e : Multipliers) (D P : Z) :
  multipliers_at evaluator hands hand_values num_players r i = Some e ->
  hand_values !! (r * S num_players)%nat = Some D ->
  hand_values !! (r * S num_players + S i)%nat = Some P ->
  - 2 ^ 31 <= D - P < 2 ^ 31 ->
  ante e = -1 \/ ante e = 1.
Proof.
  intros H HD HP Hrange. cell_parts H.
  rewrite (value_round_lookup _ _ _ _ _ HP) in Hdv, Hpv.
  rewrite HD in Hdv. injection Hdv as <-. rewrite HP in Hpv. injection Hpv as <-.
  unfold cell, player_multipliers. cbn [ante].
  rewrite copysign_1, wrap32_small by exact Hrange.
  unfold ante_multiplier.
  destruct (Z.eqb_spec (house_way ACE_HIGH KING_HIGH QUEEN_HIGH ACE KING dh.1.1 P) 0)
    as [_|Hplay]; [left; reflexivity|].
  apply house_way_played in Hplay.
  destruct (Z.ltb_spec (D - P) 0); cbn; [|right; reflexivity].
  destruct (Z.leb_spec D QUEEN_HIGH); [left; reflexivity|lia].
Qed.

Lemma ante_never_pushes_witness :
  exists e,
    multipliers_at (sample_evaluator 7462) [jack_high; aces_with_king_1]
      [1057; 717] 1 0 0 = Some e /\
    (ante e = -1 \/ ante e = 1).
Proof.
  eexists. split; [vm_compute; reflexivity|].
  apply (ante_never_pushes (sample_evaluator 7462) [jack_high; aces_with_king_1]
           [1057; 717] 1 0 0 _ 1057 717); try (vm_compute; reflexivity); lia.
Defined.

(** X15: the outcome of a played hand.  Against a dealer weaker than
    Queen-high the Play pushes and the Ante wins; against a qualifying dealer
    a strictly better hand wins both bets and a strictly worse hand loses
    both. *)
Theorem played_hand_outcomes (evaluator : Evaluator) (hands : list Hand)
    (hand_values : list Z) (num_players r i : nat) (e : Multipliers)
    (dealer_hand : Hand) (D P : Z) :
  multipliers_at evaluator hands hand_values num_players r i = Some e ->
  hands !! (r * S num_players)%nat = Some dealer_hand ->
  hand_values !! (r * S num_players)%nat = Some D ->
  hand_values !! (r * S num_players + S i)%nat = Some P ->
  - 2 ^ 31 <= D - P < 2 ^ 31 ->
  decision dealer_hand P <> 0 ->
  (QUEEN_HIGH < D -> play e = 0 /\ ante e = 1) /\
  (D <= QUEEN_HIGH -> P < D -> play e = 1 /\ ante e = 1) /\
  (D < P -> play e = -1 /\ ante e = -1).
Proof.
  intros H Hd HD HP Hrange Hplay. cell_parts H.
  rewrite Hd in Hdh. injection Hdh as <-.
  rewrite (value_round_lookup _ _ _ _ _ HP) in Hdv, Hpv.
  rewrite HD in Hdv. injection Hdv as <-. rewrite HP in Hpv. injection Hpv as <-.
  unfold decision in Hplay. pose proof (house_way_played _ _ Hplay) as HQ.
  unfold cell, player_multipliers. cbn [play ante].
  rewrite copysign_1, wrap32_small by exact Hrange.
  unfold ante_multiplier, play_result.
  destruct (house_way_0_or_1 dealer_hand.1.1 P) as [E|E]; [contradiction|].
  rewrite E. cbn [Z.eqb].
  destruct (Z.ltb_spec (D - P) 0), (Z.leb_spec D QUEEN_HIGH); cbn;
    repeat split; intros; try reflexivity; lia.
Qed.

Lemma played_hand_outcomes_witness :
  exists e,
    multipliers_at (sample_evaluator 7462) [jack_high; aces_with_king_1]
      [1057; 717] 1 0 0 = Some e /\
    play e = 0 /\ ante e = 1.
Proof.
  eexists. split; [vm_compute; reflexivity|].
  apply (played_hand_outcomes (sample_evaluator 7462) [jack_high; aces_with_king_1]
           [1057; 717] 1 0 0 _ jack_high 1057 717);
    try (vm_compute; reflexivity); try (vm_compute; discriminate); lia.
Defined.

(** X16: the house way is monotone: a hand that is played against a face-up
    card is also played when it is stronger and when the face-up card is of
    lower rank; and any pair or better is played against every card. *)
Theorem house_way_monotone (dealer_hand dealer_hand' : Hand) (P P' : Z) :
  decision dealer_hand P = 1 ->
  P' <= P ->
  get_rank_int dealer_hand'.1.1 <= get_rank_int dealer_hand.1.1 ->
  decision dealer_hand' P' = 1 /\
  (forall (h : Hand) (v : Z), v <= MAX_PAIR -> decision h v = 1).
Proof.
  unfold decision, house_way, get_rank_int, ACE_HIGH, KING_HIGH, QUEEN_HIGH, ACE, KING,
    MAX_PAIR.
  intros Hd HP Hr. split.
  - revert Hd.
    destruct (Z.leb_spec P 936), (Z.leb_spec P 990), (Z.leb_spec P 1034),
      (Z.leb_spec P' 936), (Z.leb_spec P' 990), (Z.leb_spec P' 1034),
      (Z.ltb_spec (Z.land (Z.shiftr dealer_hand.1.1 8) 15) 12),
      (Z.ltb_spec (Z.land (Z.shiftr dealer_hand.1.1 8) 15) 11),
      (Z.ltb_spec (Z.land (Z.shiftr dealer_hand'.1.1 8) 15) 12),
      (Z.ltb_spec (Z.land (Z.shiftr dealer_hand'.1.1 8) 15) 11);
      intros; try reflexivity; try discriminate; lia.
  - intros h v Hv. destruct (Z.leb_spec v 936); [reflexivity|lia].
Qed.

Lemma house_way_monotone_witness :
  decision (new RK Spades, new R2 Hearts, new R3 Hearts) 937 = 1.
Proof.
  refine (proj1 (house_way_monotone (new RK Spades, new R2 Hearts, new R3 Hearts)
                   (new RK Spades, new R2 Hearts, new R3 Hearts) 990 937 _ _ _)).
  - vm_compute. reflexivity.
  - lia.
  - vm_compute. intros H. discriminate H.
Defined.

(** X17: the fold never costs a Pair-Plus win: every hand that holds a pair
    or better is played, so the Pair-Plus multiplier of a cell is the pay
    table's entry for the player's value and loses exactly when the hand is
    worse than a pair. *)
Theorem pair_plus_unaffected_by_fold (evaluator : Evaluator) (hands : list Hand)
    (hand_values : list Z) (num_players r i : nat) (e : Multipliers) (P : Z) :
  multipliers_at evaluator hands hand_values num_players r i = Some e ->
  hand_values !! (r * S num_players + S i)%nat = Some P ->
  pair_plus e = pair_plus_multiplier 1 P /\
  (pair_plus e = -1 <-> MAX_PAIR < P).
Proof.
  intros H HP. cell_parts H.
  rewrite (value_round_lookup _ _ _ _ _ HP) in Hpv. rewrite HP in Hpv. injection Hpv as <-.
  unfold cell, player_multipliers. cbn [pair_plus].
  unfold pair_plus_multiplier, house_way, ACE_HIGH, KING_HIGH, QUEEN_HIGH, MAX_PAIR,
    ThreeCardLookup.MAX_FLUSH, ThreeCardLookup.MAX_STRAIGHT, MAX_TRIPS,
    ThreeCardLookup.MAX_STRAIGHT_FLUSH.
  destruct (Z.leb_spec P 936), (Z.gtb_spec P 872), (Z.gtb_spec P 716), (Z.gtb_spec P 442),
    (Z.gtb_spec P 25), (Z.gtb_spec P 12), (Z.gtb_spec P 1); cbn [Z.eqb]; try lia;
    repeat match goal with |- context [if ?b then _ else _] => destruct b end;
    cbn [Z.eqb]; split; try reflexivity; split; intros; try lia; try discriminate.
Qed.

Lemma pair_plus_unaffected_by_fold_witness :
  exists e,
    multipliers_at (sample_evaluator 7462) [aces_with_king_1; jack_high]
      [717; 1057] 1 0 0 = Some e /\
    pair_plus e = pair_plus_multiplier 1 1057 /\
    (pair_plus e = -1 <-> ThreeCardLookup.MAX_PAIR < 1057).
Proof.
  eexists. split; [vm_compute; reflexivity|].
  apply (pair_plus_unaffected_by_fold (sample_evaluator 7462)
           [aces_with_king_1; jack_high] [717; 1057] 1 0 0); vm_compute; reflexivity.
Defined.

End WagerEngineMore.

(** ** Bank settlement: shape, clipping and edge cases *)

Section BankrollSettlementMore.

Import ThreeCardPoker.


Lemma adjust_row_is_Some (bank_amount : Z) (payouts : list Z) :
  is_Some (adjust_row bank_amount payouts) <-> payouts <> [].
Proof.
  destruct payouts as [|p ps]; cbn.
  - split; [intros [x Hx]; discriminate|contradiction].
  - split; [discriminate|]. intros _. unfold adjust_row, cumsum.
    cbn [map cumsum_from zip zip_with]. eexists. reflexivity.
Qed.





(** The settlement of the spots [payouts] once [acc] has already been
    matched against the bank. *)
Local Abbreviation settle bank_amount acc payouts :=
  (adjust_rest bank_amount acc
     (zip payouts (map wrap32 (cumsum_from acc (map absolute32 payouts))))).

Lemma settle_cons (bank_amount acc p : Z) (ps : list Z) :
  0 <= acc -> acc + Z.abs p <= INT32_MAX ->
  settle bank_amount acc (p :: ps) =
  (if acc + Z.abs p <? bank_amount then p
   else if acc <? bank_amount then to_int32 (copysign (wrap32 (bank_amount - acc)) p)
        else 0)
  :: settle bank_amount (acc + Z.abs p) ps.
Proof.
  intros Hacc Hfit. unfold INT32_MAX in Hfit.
  cbn [map cumsum_from zip zip_with adjust_rest].
  assert (Ha : absolute32 p = Z.abs p) by (unfold absolute32; apply wrap32_small; lia).
  rewrite Ha, (wrap32_small (acc + Z.abs p)) by lia. reflexivity.
Qed.

Lemma adjust_row_settle (bank_amount : Z) (payouts : list Z) :
  0 < bank_amount -> payouts <> [] -> fits_int32 payouts ->
  adjust_row bank_amount payouts = Some (settle bank_amount 0 payouts).
Proof. intros Hb Hne Hfit. exact (adjust_row_from_zero _ _ Hb Hne Hfit). Qed.

Lemma settle_exhausted (bank_amount acc : Z) (payouts : list Z) :
  0 <= acc -> bank_amount <= acc -> acc + total (map Z.abs payouts) <= INT32_MAX ->
  settle bank_amount acc payouts = replicate (length payouts) 0.
Proof.
  revert acc. induction payouts as [|p ps IH]; intros acc Hacc Hb Hfit; [reflexivity|].
  cbn [map] in Hfit. rewrite total_cons in Hfit.
  pose proof (total_abs_nonneg ps).
  rewrite settle_cons by lia.
  destruct (Z.ltb_spec (acc + Z.abs p) bank_amount); [lia|].
  destruct (Z.ltb_spec acc bank_amount); [lia|].
  cbn [length replicate]. f_equal. apply IH; lia.
Qed.


Lemma total_replicate_0 (n : nat) : total (map Z.abs (replicate n 0)) = 0.
Proof.
  induction n as [|n IH]; [reflexivity|].
  cbn [replicate map]. rewrite total_cons, IH. lia.
Qed.

Lemma settle_uses_up_bank (bank_amount acc : Z) (payouts : list Z) :
  0 <= acc -> acc < bank_amount -> bank_amount <= acc + total (map Z.abs payouts) ->
  acc + total (map Z.abs payouts) <= INT32_MAX ->
  total (map Z.abs (settle bank_amount acc payouts)) = bank_amount - acc.
Proof.
  revert acc. induction payouts as [|p ps IH]; intros acc Hacc Hlt Hb Hfit.
  - cbn in Hb. lia.
  - cbn [map] in Hfit, Hb. rewrite total_cons in Hfit, Hb.
    pose proof (total_abs_nonneg ps).
    rewrite settle_cons by lia.
    cbn [map]. rewrite total_cons.
    destruct (Z.ltb_spec (acc + Z.abs p) bank_amount).
    + rewrite IH by lia. lia.
    + destruct (Z.ltb_spec acc bank_amount); [|lia].
      rewrite settle_exhausted by lia.
      rewrite total_replicate_0. unfold INT32_MAX in *.
      rewrite (wrap32_small (bank_amount - acc)) by lia.
      rewrite to_int32_small by (unfold copysign; destruct (p <? 0); lia).
      unfold copysign. destruct (p <? 0); lia.
Qed.

Lemma settle_sign_and_size (bank_amount acc : Z) (payouts : list Z) :
  0 < bank_amount -> 0 <= acc -> acc + total (map Z.abs payouts) <= INT32_MAX ->
  Forall2 (fun adj p => Z.abs adj <= Z.abs p /\ 0 <= adj * p)
          (settle bank_amount acc payouts) payouts.
Proof.
  intros Hbank. revert acc.
  induction payouts as [|p ps IH]; intros acc Hacc Hfit; [constructor|].
  cbn [map] in Hfit. rewrite total_cons in Hfit.
  pose proof (total_abs_nonneg ps).
  rewrite settle_cons by lia.
  constructor; [|apply IH; lia].
  destruct (Z.ltb_spec (acc + Z.abs p) bank_amount); [nia|].
  destruct (Z.ltb_spec acc bank_amount); [|lia].
  unfold INT32_MAX in *.
  rewrite (wrap32_small (bank_amount - acc)) by lia.
  rewrite to_int32_small by (unfold copysign; destruct (p <? 0); lia).
  unfold copysign. destruct (Z.ltb_spec p 0); nia.
Qed.

Lemma settle_prefix (bank_amount acc : Z) (payouts : list Z) (i : nat) (p : Z) :
  0 <= acc -> acc + total (map Z.abs payouts) <= INT32_MAX ->
  payouts !! i = Some p ->
  acc + total (map Z.abs (take (S i) payouts)) < bank_amount ->
  settle bank_amount acc payouts !! i = Some p.
Proof.
  revert acc i. induction payouts as [|q ps IH]; intros acc i Hacc Hfit Hi Hb;
    [discriminate|].
  cbn [map] in Hfit. rewrite total_cons in Hfit.
  cbn [take map] in Hb. rewrite total_cons in Hb.
  pose proof (total_abs_nonneg ps). pose proof (total_abs_nonneg (take i ps)).
  rewrite settle_cons by lia.
  destruct i as [|i].
  - cbn in Hi. injection Hi as ->. cbn [lookup list_lookup].
    destruct (Z.ltb_spec (acc + Z.abs p) bank_amount); [reflexivity|].
    cbn in Hb. lia.
  - cbn [lookup list_lookup] in *. apply IH; try lia. exact Hi.
Qed.

(** X19: settling never raises a stake nor turns a win into a loss: with a
    positive bank and no overflow of the running total, every settled payout
    has at most the magnitude of the original one and never the opposite
    sign. *)
Theorem settled_payout_sign_and_size (bank_amount : Z) (payouts adj : list Z) :
  0 < bank_amount -> fits_int32 payouts ->
  adjust_row bank_amount payouts = Some adj ->
  Forall2 (fun a p => Z.abs a <= Z.abs p /\ 0 <= a * p) adj payouts.
Proof.
  intros Hb Hfit Hadj.
  assert (Hne : payouts <> []) by (intros ->; discriminate).
  rewrite adjust_row_settle in Hadj by assumption. injection Hadj as <-.
  apply settle_sign_and_size; [exact Hb|lia|exact Hfit].
Qed.

Lemma settled_payout_sign_and_size_witness :
  Forall2 (fun a p => Z.abs a <= Z.abs p /\ 0 <= a * p)
          [3000; -2000; 0] [3000; -4000; 1000].
Proof.
  apply (settled_payout_sign_and_size 5000 [3000; -4000; 1000] [3000; -2000; 0]).
  - lia.
  - vm_compute. discriminate.
  - vm_compute. reflexivity.
Defined.

(** X20: a bank that cannot cover the round is used up exactly: when the
    absolute payouts of the row add up to the bank or more, the absolute
    settled payouts add up to the bank. *)
Theorem exhausted_bank_is_paid_out (bank_amount : Z) (payouts adj : list Z) :
  0 < bank_amount -> fits_int32 payouts ->
  bank_amount <= total (map Z.abs payouts) ->
  adjust_row bank_amount payouts = Some adj ->
  total (map Z.abs adj) = bank_amount.
Proof.
  intros Hb Hfit Hge Hadj.
  assert (Hne : payouts <> []) by (intros ->; discriminate).
  rewrite adjust_row_settle in Hadj by assumption. injection Hadj as <-.
  rewrite settle_uses_up_bank; [lia|lia|lia|lia|exact Hfit].
Qed.

Lemma exhausted_bank_is_paid_out_witness :
  total (map Z.abs [3000; -2000; 0]) = 5000.
Proof.
  apply (exhausted_bank_is_paid_out 5000 [3000; -4000; 1000] [3000; -2000; 0]).
  - lia.
  - vm_compute. discriminate.
  - vm_compute. discriminate.
  - vm_compute. reflexivity.
Defined.

(** X21: seats are served in order: a spot settles at its full value as long
    as the absolute payouts up to and including it stay under the bank,
    whatever follows it in the row. *)
Theorem earlier_spots_paid_in_full (bank_amount : Z) (payouts adj : list Z)
    (i : nat) (p : Z) :
  0 < bank_amount -> fits_int32 payouts ->
  adjust_row bank_amount payouts = Some adj ->
  payouts !! i = Some p ->
  total (map Z.abs (take (S i) payouts)) < bank_amount ->
  adj !! i = Some p.
Proof.
  intros Hb Hfit Hadj Hi Hlt.
  assert (Hne : payouts <> []) by (intros ->; discriminate).
  rewrite adjust_row_settle in Hadj by assumption. injection Hadj as <-.
  apply settle_prefix; [lia|exact Hfit|exact Hi|lia].
Qed.

Lemma earlier_spots_paid_in_full_witness :
  [3000; -2000; 0] !! 0%nat = Some 3000.
Proof.
  apply (earlier_spots_paid_in_full 5000 [3000; -4000; 1000] [3000; -2000; 0] 0 3000).
  - lia.
  - vm_compute. discriminate.
  - vm_compute. reflexivity.
  - reflexivity.
  - vm_compute. reflexivity.
Defined.



(** X23: a bank of zero or less (an integer of at most 64 bits) is not
    rejected.  As long as the running total of the row does not overflow,
    every spot after the first settles at [0], and the first spot is settled
    at the bank's magnitude, signed like the payout ([0] for a bank of [0]);
    a magnitude that does not fit the 32-bit result is stored as [-2^31]. *)
Theorem nonpositive_bank_settlement (bank_amount p : Z) (ps : list Z) :
  - 2 ^ 63 <= bank_amount <= 0 -> fits_int32 (p :: ps) ->
  adjust_row bank_amount (p :: ps) =
  Some ((if - 2 ^ 31 <? bank_amount then copysign bank_amount p else - 2 ^ 31)
        :: replicate (length ps) 0).
Proof.
  intros Hb Hfit. unfold fits_int32 in Hfit. cbn [map] in Hfit. rewrite total_cons in Hfit.
  pose proof (total_abs_nonneg ps).
  unfold adjust_row, cumsum. cbn [map cumsum_from zip zip_with]. rewrite Z.add_0_l.
  assert (Ha : absolute32 p = Z.abs p)
    by (unfold absolute32; apply wrap32_small; unfold INT32_MAX in *; lia).
  rewrite Ha, (wrap32_small (Z.abs p)) by (unfold INT32_MAX in *; lia).
  destruct (Z.ltb_spec (Z.abs p) bank_amount); [lia|].
  f_equal. f_equal.
  - unfold to_int32, copysign.
    destruct (Z.ltb_spec (- 2 ^ 31) bank_amount), (Z.ltb_spec p 0);
      repeat match goal with
             | |- context [?a <=? ?b] => destruct (Z.leb_spec a b)
             | |- context [?a <? ?b] => destruct (Z.ltb_spec a b)
             end; cbn [andb]; lia.
  - apply (settle_exhausted bank_amount (Z.abs p) ps); lia.
Qed.

Lemma nonpositive_bank_settlement_witness :
  adjust_row (-5000) [20; -20; 60] = Some [5000; 0; 0].
Proof.
  apply (nonpositive_bank_settlement (-5000) 20 [-20; 60]).
  - lia.
  - vm_compute. discriminate.
Defined.

End BankrollSettlementMore.

(** ** The driver: returns of the player/dealer *)

Section Driver.

Import Card ThreeCardLookup ThreeCardPoker TCBanking.

Lemma total_app (l k : list Z) : total (l ++ k) = total l + total k.
Proof.
  induction l as [|x l IH]; [reflexivity|].
  change ((x :: l) ++ k) with (x :: (l ++ k)). rewrite !total_cons, IH. lia.
Qed.

(** What a seat can win or lose once the bets are placed. *)
Lemma placed_cell_stake (evaluator : Evaluator) (c dv pv : Z) (six : list Z) :
  total (map Z.abs (spots (place_bets bet_size (cell evaluator c dv pv six)))) <= 21040.
Proof.
  unfold cell, player_multipliers, place_bets, bet_size, spots.
  cbn [play ante pair_plus six_card map].
  rewrite !total_cons. change (total []) with 0.
  assert (Hp : -1 <= play_result QUEEN_HIGH
                 (house_way ACE_HIGH KING_HIGH QUEEN_HIGH ACE KING c pv)
                 (copysign 1 (wrap32 (dv - pv))) dv <= 1).
  { rewrite copysign_1. unfold play_result.
    destruct (house_way_0_or_1 c pv) as [-> | ->];
      destruct (dv <=? QUEEN_HIGH), (wrap32 (dv - pv) <? 0); cbn; lia. }
  assert (Ha : -1 <= ante_multiplier QUEEN_HIGH
                 (house_way ACE_HIGH KING_HIGH QUEEN_HIGH ACE KING c pv)
                 (copysign 1 (wrap32 (dv - pv))) dv <= 1).
  { rewrite copysign_1. unfold ante_multiplier.
    destruct (house_way_0_or_1 c pv) as [-> | ->];
      destruct (dv <=? QUEEN_HIGH), (wrap32 (dv - pv) <? 0); cbn; lia. }
  assert (Hpp : -1 <= pair_plus_multiplier
                  (house_way ACE_HIGH KING_HIGH QUEEN_HIGH ACE KING c pv) pv <= 50).
  { unfold pair_plus_multiplier.
    repeat match goal with |- context [if ?b then _ else _] => destruct b end; lia. }
  assert (Hs : -1 <= six_card_multiplier evaluator (wrap32 (_six evaluator six)) <= 1000).
  { unfold six_card_multiplier.
    repeat match goal with |- context [if ?b then _ else _] => destruct b end; lia. }
  set (x1 := play_result _ _ _ _) in *. set (x2 := ante_multiplier _ _ _ _) in *.
  set (x3 := pair_plus_multiplier _ _) in *. set (x4 := six_card_multiplier _ _) in *.
  clearbody x1 x2 x3 x4.
  rewrite (wrap32_small (x1 * 20)), (wrap32_small (x2 * 20)), (wrap32_small (x3 * 20)),
    (wrap32_small (x4 * 20)) by lia.
  lia.
Qed.

Lemma placed_round_stake (evaluator : Evaluator) (hands : list Hand) (hand_values : list Z)
    (num_players : nat) (multipliers : list (list Multipliers)) (row : list Multipliers) :
  GenerateMultipliers evaluator hands hand_values num_players = Some multipliers ->
  row ∈ multipliers ->
  total (map Z.abs (concat (map spots (map (place_bets bet_size) row))))
  <= 21040 * Z.of_nat (length row).
Proof.
  intros Hm Hrow. apply list_elem_of_lookup in Hrow. destruct Hrow as [r Hr].
  assert (Hcells : forall i e, row !! i = Some e ->
            total (map Z.abs (spots (place_bets bet_size e))) <= 21040).
  { intros i e Hi.
    destruct (GenerateMultipliers_cell _ _ _ _ _ _ _ _ _ Hm Hr Hi)
      as (dh & ph & dv & pv & _ & _ & _ & _ & _ & ->).
    apply placed_cell_stake. }
  clear Hr Hm. induction row as [|e row IH]; [cbn; lia|].
  cbn [map concat]. rewrite map_app, total_app.
  pose proof (Hcells 0%nat e eq_refl) as H0.
  assert (IH' : forall i e, row !! i = Some e ->
            total (map Z.abs (spots (place_bets bet_size e))) <= 21040)
    by (intros i e' Hi; exact (Hcells (S i) e' Hi)).
  specialize (IH IH'). cbn [length]. lia.
Qed.

(** Negating a settled round negates its sum. *)
Lemma dealer_side_sum (round : list Multipliers) :
  total (map Z.abs (concat (map spots round))) <= BANK_AMOUNT ->
  foldr Z.add 0 (map (fun m => foldr Z.add 0 (spots m)) (map dealer_side round)) =
  - total (concat (map spots round)).
Proof.
  unfold BANK_AMOUNT. induction round as [|[a b c d] round IH]; intros Hb; [reflexivity|].
  change (Z.abs a + (Z.abs b + (Z.abs c + (Z.abs d +
            total (map Z.abs (concat (map spots round)))))) <= 5000) in Hb.
  pose proof (total_abs_nonneg (concat (map spots round))) as Hn.
  change (wrap32 (a * -1) + (wrap32 (b * -1) + (wrap32 (c * -1) + (wrap32 (d * -1) + 0))) +
          foldr Z.add 0 (map (fun m => foldr Z.add 0 (spots m)) (map dealer_side round)) =
          - (a + (b + (c + (d + total (concat (map spots round))))))).
  rewrite IH by lia. rewrite !wrap32_small by lia. lia.
Qed.

Lemma settled_rounds_within_bank (payouts settled : list (list Multipliers)) :
  Forall (fun round => round <> [] /\ fits_int32 (concat (map spots round))) payouts ->
  AdjustForAction payouts BANK_AMOUNT = Some settled ->
  Forall (fun round => total (map Z.abs (concat (map spots round))) <= BANK_AMOUNT) settled.
Proof.
  intros Hall Hs.
  assert (Hs' : adjust_rounds payouts BANK_AMOUNT = Some settled)
    by (destruct payouts; [discriminate|exact Hs]).
  clear Hs. unfold adjust_rounds in Hs'. apply mapM_Some in Hs'.
  induction Hs' as [|round out payouts settled Hout _ IH]; [constructor|].
  apply Forall_cons in Hall. destruct Hall as [[Hne Hfit] Hall].
  constructor; [|apply IH, Hall].
  destruct (adjust_row BANK_AMOUNT (concat (map spots round))) as [adj|] eqn:E;
    [|discriminate].
  cbn in Hout. injection Hout as <-.
  assert (Hpos : 0 < BANK_AMOUNT) by (unfold BANK_AMOUNT; lia).
  destruct (adjust_row_bound _ _ _ Hpos Hfit E) as [Hl Ht].
  rewrite spots_length in Hl. rewrite (spots_seats _ _ Hl). exact Ht.
Qed.

(** X24: in the driver's configuration (five players, bets of 20 on every
    spot, a bank of 5000) the player/dealer's return of every round lies
    between [-5000] and [5000], for any dealt hands and any oracle: the
    stakes of a round never overflow the running total, so the bank caps the
    round. *)
Theorem banker_round_return_within_bank (evaluator : Evaluator) (hands : list Hand)
    (returns : list Z) :
  returns_by_round evaluator hands = Some returns ->
  Forall (fun x => - BANK_AMOUNT <= x <= BANK_AMOUNT) returns.
Proof.
  unfold returns_by_round, adj_payouts.
  destruct (evaluate_hands hands) as [values|]; [|discriminate].
  cbn [mbind option_bind].
  destruct (GenerateMultipliers evaluator hands values NUM_PLAYERS) as [m|] eqn:Hm;
    [|discriminate].
  cbn [mbind option_bind].
  destruct (AdjustForAction _ BANK_AMOUNT) as [settled|] eqn:Hs; [|discriminate].
  cbn [mbind option_bind]. intros [= <-].
  destruct (GenerateMultipliers_rows _ _ _ _ _ Hm) as (_ & _ & _ & _ & Hrows).
  assert (Hall : Forall (fun round => round <> [] /\ fits_int32 (concat (map spots round)))
                        (map (map (place_bets bet_size)) m)).
  { apply Forall_fmap. apply Forall_forall. intros row Hrow. cbn beta.
    pose proof (proj1 (Forall_forall _ _) Hrows row Hrow) as Hlen. cbn beta in Hlen.
    pose proof (placed_round_stake _ _ _ _ _ _ Hm Hrow) as Hst.
    rewrite Hlen in Hst. unfold NUM_PLAYERS in *. split.
    - destruct row; [discriminate|discriminate].
    - unfold fits_int32, INT32_MAX. lia. }
  pose proof (settled_rounds_within_bank _ _ Hall Hs) as Hb.
  rewrite !Forall_fmap. eapply Forall_impl; [exact Hb|].
  intros round Hr. unfold compose. cbn beta in *.
  rewrite dealer_side_sum by exact Hr.
  pose proof (abs_total_le (concat (map spots round))). lia.
Qed.

Lemma banker_round_return_within_bank_witness :
  exists returns,
    returns_by_round (sample_evaluator 2467) sample_deal = Some returns /\
    Forall (fun x => - BANK_AMOUNT <= x <= BANK_AMOUNT) returns.
Proof.
  eexists. split; [vm_compute; reflexivity|].
  apply (banker_round_return_within_bank (sample_evaluator 2467) sample_deal).
  vm_compute. reflexivity.
Defined.

Lemma GenerateMultipliers_is_Some (evaluator : Evaluator) (hands : list Hand)
    (hand_values : list Z) (num_players num_rounds : nat) :
  (num_rounds <> 0)%nat -> (num_players <> 0)%nat ->
  length hands = (num_rounds * S num_players)%nat ->
  length hand_values = length hands ->
  is_Some (GenerateMultipliers evaluator hands hand_values num_players).
Proof.
  intros Hrounds Hplayers Hh Hv. unfold GenerateMultipliers.
  destruct (reshape_is_Some (S num_players) hand_values) as [svals Hsv];
    [lia | rewrite Hv, Hh; apply Nat.Div0.mod_mul |].
  destruct (reshape_is_Some (S num_players) hands) as [hrounds Hhr];
    [lia | rewrite Hh; apply Nat.Div0.mod_mul |].
  pose proof (reshape_exact _ _ _ Hhr) as Lhr.
  pose proof (reshape_exact _ _ _ Hsv) as Lsv.
  rewrite Hhr. cbn [mbind option_bind].
  rewrite option_guard_True by (split; [nia|exact Hplayers]).
  cbn [mbind option_bind]. rewrite Hsv. cbn [mbind option_bind].
  unfold broadcast_rows. rewrite decide_True by nia. cbn [mbind option_bind].
  rewrite ACE_HIGH_eval, KING_HIGH_eval, QUEEN_HIGH_eval. cbn [mbind option_bind].
  eexists. reflexivity.
Qed.

(** X25: the driver settles every deal: for any positive number of rounds of
    six well-formed hands (the dealer's and five players') it returns one
    return per round, whatever the oracle; no lookup, reshape or settlement
    step fails. *)
Theorem every_deal_is_settled (evaluator : Evaluator) (hands : list Hand)
    (num_rounds : nat) :
  (0 < num_rounds)%nat ->
  Forall valid_hand hands ->
  length hands = (num_rounds * S NUM_PLAYERS)%nat ->
  exists returns,
    returns_by_round evaluator hands = Some returns /\ length returns = num_rounds.
Proof.
  intros Hrounds Hvalid Hlen. unfold returns_by_round, adj_payouts.
  assert (Hne : hands <> []).
  { intros ->. cbn [length] in Hlen. unfold NUM_PLAYERS in Hlen. lia. }
  assert (Hev : is_Some (evaluate_hands hands)).
  { rewrite evaluate_hands_mapM by exact Hne. apply mapM_is_Some.
    eapply Forall_impl; [exact Hvalid|]. intros h Hh. apply evaluate_hand_valid, Hh. }
  destruct Hev as [values Hvalues]. rewrite Hvalues. cbn [mbind option_bind].
  assert (Hvl : length values = length hands).
  { rewrite evaluate_hands_mapM in Hvalues by exact Hne. apply mapM_Some in Hvalues.
    symmetry. eapply Forall2_length, Hvalues. }
  destruct (GenerateMultipliers_is_Some evaluator hands values NUM_PLAYERS num_rounds
              ltac:(lia) ltac:(discriminate) Hlen Hvl) as [m Hm].
  rewrite Hm. cbn [mbind option_bind].
  destruct (GenerateMultipliers_rows _ _ _ _ _ Hm) as (Hml & Hmne & _ & _ & Hrows).
  assert (Hs : is_Some (AdjustForAction (map (map (place_bets bet_size)) m) BANK_AMOUNT)).
  { rewrite AdjustForAction_rounds by (destruct m; [congruence|discriminate]).
    unfold adjust_rounds. apply mapM_is_Some. apply Forall_fmap.
    eapply Forall_impl; [exact Hrows|]. intros row Hrow. unfold compose. cbn beta in *.
    destruct (adjust_row_is_Some BANK_AMOUNT
                (concat (map spots (map (place_bets bet_size) row)))) as [_ H].
    destruct H as [adj ->]; [|eexists; reflexivity].
    destruct row; [discriminate|discriminate]. }
  destruct Hs as [settled Hs]. rewrite Hs. cbn [mbind option_bind].
  eexists. split; [reflexivity|].
  rewrite AdjustForAction_rounds in Hs by (destruct m; [congruence|discriminate]).
  unfold adjust_rounds in Hs. apply length_mapM in Hs.
  rewrite !length_map, <- Hs, length_map. unfold NUM_PLAYERS in *. nia.
Qed.

Lemma every_deal_is_settled_witness :
  exists returns,
    returns_by_round (sample_evaluator 2467) sample_deal = Some returns /\
    length returns = 1%nat.
Proof.
  apply (every_deal_is_settled (sample_evaluator 2467) sample_deal 1).
  - lia.
  - repeat (apply Forall_cons; split;
            [do 6 eexists; reflexivity|]). apply Forall_nil_2.
  - reflexivity.
Defined.

End Driver.
